(** * Slide-deck generator: the job pipeline front end and its contracts

    A shallow embedding of the TypeScript front end (type declarations,
    the route handlers, the page and the DeckForm, DeckStatus and
    DeckList components), of the FastAPI reference implementation given
    in FASTAPI_SPEC.md, and of the parts of the back end that are only
    described in prose (job store, weighted slide allocation,
    content-fit engine). *)

From Stdlib Require Import QArith Ascii Sorted.
From stdpp Require Import gmap strings list.

Local Open Scope nat_scope.

(** ** src/lib/types.ts *)

Module Types.

(** [export type DeckStatus = "outline" | "analyze" | ... | "error"].
    At run time a status is a plain string, so the union is kept both
    as an inductive type and as the list of its string literals. *)
Inductive DeckStatus : Type :=
| outline | analyze | content | optimize | layout | review | done | error.

#[global] Instance DeckStatus_eq_dec : EqDecision DeckStatus.
Proof. solve_decision. Defined.

Definition status_name (s : DeckStatus) : string :=
  match s with
  | outline => "outline"
  | analyze => "analyze"
  | content => "content"
  | optimize => "optimize"
  | layout => "layout"
  | review => "review"
  | done => "done"
  | error => "error"
  end.

Definition all_DeckStatus : list DeckStatus :=
  [outline; analyze; content; optimize; layout; review; done; error].

(** Membership of a run-time string in the [DeckStatus] union. *)
Definition is_DeckStatus (s : string) : bool :=
  bool_decide (s ∈ status_name <$> all_DeckStatus).

(** [export type Audience = "technical" | "business" | "academic" | "general"] *)
Definition Audience_values : list string :=
  ["technical"; "business"; "academic"; "general"].

(** [export type Template = "corporate" | ... | "luxury"] *)
Definition Template_values : list string :=
  ["corporate"; "academic"; "startup"; "minimal";
   "creative"; "nature"; "futuristic"; "luxury"].

Definition is_Audience (s : string) : bool := bool_decide (s ∈ Audience_values).
Definition is_Template (s : string) : bool := bool_decide (s ∈ Template_values).

End Types.

(** ** DeckList component: the status lookup tables *)

Module DeckList.

(** A JavaScript object literal used as a lookup table: a finite map
    from property names to values; reading a missing property gives
    [undefined], here [None]. *)
Definition statusColors : gmap string string :=
  list_to_map
    [("outline", "blue"); ("plan", "cyan"); ("fix", "geekblue");
     ("render", "purple"); ("done", "green"); ("error", "red")].

Definition statusLabels : gmap string string :=
  list_to_map
    [("outline", "OUTLINE"); ("plan", "PLAN"); ("fix", "FIX");
     ("render", "RENDER"); ("done", "DONE"); ("error", "ERROR")].

(** The rendered status cell:
    [<Tag color={statusColors[status]}>{statusLabels[status]}</Tag>]. *)
Record Tag : Type := { color : option string; children : option string }.

Definition render_status (status : string) : Tag :=
  {| color := statusColors !! status; children := statusLabels !! status |}.

Definition legacy_keys : list string :=
  ["outline"; "plan"; "fix"; "render"; "done"; "error"].

End DeckList.

(** ** DeckForm component *)

Module DeckForm.

(** The values held by the antd form. [prompt] has no initial value. *)
Record FormValues : Type := {
  prompt : option string;
  slideCount : Z;
  audience : string;
  template : string
}.

(** [initialValues={{ slideCount: 10, audience: "business", template: "corporate" }}] *)
Definition initialValues : FormValues :=
  {| prompt := None; slideCount := 10; audience := "business"; template := "corporate" |}.

(** [<Slider min={5} max={30} .../>] *)
Definition slider_min : Z := 5.
Definition slider_max : Z := 30.

(** The [Select.Option] values, in document order. *)
Definition audience_options : list string :=
  ["technical"; "business"; "academic"; "general"].
Definition template_options : list string :=
  ["corporate"; "academic"; "startup"; "minimal"].

(** [<TextArea ... maxLength={500} />] *)
Definition prompt_maxLength : nat := 500.

(** What a user can do to the form. The controls are antd components:
    a slider reports a value between its [min] and [max] (a pointer
    position beyond either end snaps to that end), a select reports
    the value of one of its options, a text area keeps at most
    [maxLength] characters. *)
Inductive Event : Type :=
| TypePrompt (text : string)
| MoveSlider (position : Z)
| PickAudience (option_index : nat)
| PickTemplate (option_index : nat).

Definition slider_value (position : Z) : Z :=
  Z.max slider_min (Z.min slider_max position).

Definition set_prompt (v : FormValues) (p : string) : FormValues :=
  {| prompt := Some p; slideCount := slideCount v;
     audience := audience v; template := template v |}.
Definition set_slideCount (v : FormValues) (n : Z) : FormValues :=
  {| prompt := prompt v; slideCount := n;
     audience := audience v; template := template v |}.
Definition set_audience (v : FormValues) (a : string) : FormValues :=
  {| prompt := prompt v; slideCount := slideCount v;
     audience := a; template := template v |}.
Definition set_template (v : FormValues) (t : string) : FormValues :=
  {| prompt := prompt v; slideCount := slideCount v;
     audience := audience v; template := t |}.

Definition handle (v : FormValues) (e : Event) : FormValues :=
  match e with
  | TypePrompt text =>
      set_prompt v (String.substring 0 prompt_maxLength text)
  | MoveSlider position => set_slideCount v (slider_value position)
  | PickAudience i =>
      match audience_options !! i with
      | Some a => set_audience v a
      | None => v
      end
  | PickTemplate i =>
      match template_options !! i with
      | Some t => set_template v t
      | None => v
      end
  end.

Definition after (events : list Event) : FormValues :=
  foldl handle initialValues events.

(** The request handed to [onSubmit] (the [DeckRequest] of types.ts). *)
Record DeckRequest : Type := {
  req_prompt : string;
  req_slideCount : Z;
  req_audience : string;
  req_template : string
}.

(** The [required: true] rules: the field must hold a non-empty value. *)
Definition required (value : string) : bool :=
  negb (bool_decide (value = "")).

(** Pressing the submit button: [onFinish] runs only when every rule
    passes, and [handleFinish] passes the values on unchanged. *)
Definition submit (v : FormValues) : option DeckRequest :=
  match prompt v with
  | Some p =>
      if required p && required (audience v) && required (template v)
      then Some {| req_prompt := p; req_slideCount := slideCount v;
                   req_audience := audience v; req_template := template v |}
      else None
  | None => None
  end.

(** The request shape [create] asks for: slide count in [5,30],
    audience and template of their declared types. *)
Definition create_precondition (r : DeckRequest) : Prop :=
  (5 <= req_slideCount r <= 30)%Z
  /\ req_audience r ∈ Types.Audience_values
  /\ req_template r ∈ Types.Template_values.

(** The templates of the [Template] type that the form does not offer. *)
Definition unoffered_templates : list string :=
  ["creative"; "nature"; "futuristic"; "luxury"].

(** What every reachable state of the form satisfies. *)
Definition form_invariant (v : FormValues) : Prop :=
  (slider_min <= slideCount v <= slider_max)%Z
  /\ audience v ∈ audience_options
  /\ template v ∈ template_options.

End DeckForm.

(** ** JavaScript values, as far as the route handler looks at them *)

Module Js.

(** A string is a sequence of UTF-16 code units. *)
Abbreviation JsString := (list N).

(** The string whose code units are the character codes of a Rocq
    string (all below 256). *)
Definition str (s : string) : JsString :=
  N_of_ascii <$> String.list_ascii_of_string s.

(** A Number: not-a-number, a finite value or an infinity. What
    [JSON.parse] and the conversions below produce are double-precision
    values, which are rationals. *)
Inductive Number : Type :=
| NaN
| Fin (q : Q)
| Inf (negative : bool).

#[local] Unset Elimination Schemes.

(** What [request.json()] can hold in a field; a field that is absent
    reads as [undefined]. An object is the list of its own properties. *)
Inductive Value : Type :=
| Undefined
| Null
| Bool (b : bool)
| Num (n : Number)
| Str (s : JsString)
| Arr (items : list Value)
| Obj (props : list (JsString * Value)).

#[local] Set Elimination Schemes.

(** An abrupt completion with a [TypeError], or a value. *)
Inductive Completion (A : Type) : Type :=
| Throw (message : string)
| Normal (a : A).
Arguments Throw {A} message.
Arguments Normal {A} a.

(** [ToBoolean] *)
Definition truthy (v : Value) : bool :=
  match v with
  | Undefined | Null => false
  | Bool b => b
  | Num NaN => false
  | Num (Fin q) => negb (Qeq_bool q 0)
  | Num (Inf _) => true
  | Str [] => false
  | Str (_ :: _) => true
  | Arr _ | Obj _ => true
  end.

(** White space and line terminators, the code units that
    [String.prototype.trim] removes and that may surround a numeric
    string: TAB, LF, VT, FF, CR, SP, NBSP, U+1680, U+2000 to U+200A,
    U+2028, U+2029, U+202F, U+205F, U+3000 and U+FEFF. *)
Definition white_space : list N :=
  [9; 10; 11; 12; 13; 32; 160; 5760;
   8192; 8193; 8194; 8195; 8196; 8197; 8198; 8199; 8200; 8201; 8202;
   8232; 8233; 8239; 8287; 12288; 65279]%N.

Definition is_white_space (c : N) : bool := bool_decide (c ∈ white_space).

Fixpoint trimStart (s : JsString) : JsString :=
  match s with
  | [] => []
  | c :: rest => if is_white_space c then trimStart rest else s
  end.

(** [String.prototype.trim] *)
Definition trim (s : JsString) : JsString :=
  rev (trimStart (rev (trimStart s))).

(** *** StringToNumber *)

(** The value of a digit in the given base, for the digits 0-9, a-f
    and A-F. *)
Definition digit (base c : N) : option N :=
  let value :=
    if (48 <=? c)%N && (c <=? 57)%N then Some (c - 48)%N
    else if (97 <=? c)%N && (c <=? 102)%N then Some (c - 87)%N
    else if (65 <=? c)%N && (c <=? 70)%N then Some (c - 55)%N
    else None in
  match value with
  | Some d => if (d <? base)%N then Some d else None
  | None => None
  end.

(** The longest run of digits a string starts with, and the rest. *)
Fixpoint span_digits (base : N) (s : JsString) : list N * JsString :=
  match s with
  | [] => ([], [])
  | c :: rest =>
      match digit base c with
      | Some d => let (ds, r) := span_digits base rest in (d :: ds, r)
      | None => ([], s)
      end
  end.

Definition digits_value (base : N) (ds : list N) : Z :=
  Z.of_N (foldl (fun acc d => acc * base + d) 0 ds)%N.

(** [n / d] times [2 ^ k], for any integer [k]. *)
Definition times_pow2 (n : Z) (d : positive) (k : Z) : Z * positive :=
  if (0 <=? k)%Z then ((n * 2 ^ k)%Z, d) else (n, (d * Z.to_pos (2 ^ (- k)))%positive).

(** The integer nearest to [n / d], ties to the even one ([n >= 0]). *)
Definition round_half_even (n : Z) (d : positive) : Z :=
  let floor := (n / Zpos d)%Z in
  match (2 * (n mod Zpos d) ?= Zpos d)%Z with
  | Lt => floor
  | Gt => (floor + 1)%Z
  | Eq => if Z.even floor then floor else (floor + 1)%Z
  end.

(** The double nearest to [n / d] for [n > 0] (round to nearest, ties
    to even, 53 bits, exponents from -1022 to 1023, overflow to
    infinity). *)
Definition round_positive (n : Z) (d : positive) : Number :=
  let e0 := (Z.log2 n - Z.log2 (Zpos d))%Z in
  let '(a0, b0) := times_pow2 n d (- e0) in
  let e := if (Zpos b0 <=? a0)%Z then e0 else (e0 - 1)%Z in
  if (1024 <=? e)%Z then Inf false
  else
    let u := (Z.max e (-1022) - 52)%Z in
    let '(a, b) := times_pow2 n d (- u) in
    let m := round_half_even a b in
    if (2 ^ (1024 - u) <=? m)%Z then Inf false
    else let '(x, y) := times_pow2 m 1 u in Fin (Qmake x y).

Definition negate (x : Number) : Number :=
  match x with
  | NaN => NaN
  | Fin q => Fin (- q)
  | Inf negative => Inf (negb negative)
  end.

(** The Number value of a rational. *)
Definition round_double (q : Q) : Number :=
  match Qnum q with
  | Z0 => Fin 0
  | Zpos p => round_positive (Zpos p) (Qden q)
  | Zneg p => negate (round_positive (Zpos p) (Qden q))
  end.

Definition power10 (e : Z) : Q :=
  if (0 <=? e)%Z then inject_Z (10 ^ e) else Qmake 1 (Z.to_pos (10 ^ (- e))).

(** [0x], [0o] and [0b] literals: digits of the base and nothing else. *)
Definition non_decimal (base : N) (s : JsString) : option Q :=
  match span_digits base s with
  | (d :: ds, []) => Some (inject_Z (digits_value base (d :: ds)))
  | _ => None
  end.

(** [ExponentPart], when there is one: [e] or [E], an optional sign,
    digits, and nothing after them. *)
Definition exponent_part (s : JsString) : option Z :=
  match s with
  | [] => Some 0%Z
  | c :: rest =>
      if (c =? 101)%N || (c =? 69)%N then
        let '(negative, body) :=
          match rest with
          | sign :: r =>
              if (sign =? 43)%N then (false, r)
              else if (sign =? 45)%N then (true, r)
              else (false, rest)
          | [] => (false, rest)
          end in
        match span_digits 10 body with
        | (d :: ds, []) =>
            let e := digits_value 10 (d :: ds) in
            Some (if negative then (- e)%Z else e)
        | _ => None
        end
      else None
  end.

(** [StrUnsignedDecimalLiteral] other than [Infinity]: digits with an
    optional fraction, or a fraction alone, then an optional exponent. *)
Definition unsigned_decimal (s : JsString) : option Q :=
  let (int_part, r1) := span_digits 10 s in
  let (fraction, r2) :=
    match r1 with
    | c :: r => if (c =? 46)%N then span_digits 10 r else ([], r1)
    | [] => ([], r1)
    end in
  match int_part ++ fraction with
  | [] => None
  | ds =>
      match exponent_part r2 with
      | Some e =>
          Some (inject_Z (digits_value 10 ds) * power10 (e - Z.of_nat (length fraction)))%Q
      | None => None
      end
  end.

(** [StringToNumber]: white space around the literal is ignored, the
    empty string is 0, and a string that is no numeric literal is NaN. *)
Definition string_to_number (s : JsString) : Number :=
  match trim s with
  | [] => Fin 0
  | c :: rest =>
      let prefixed (base : N) (digits : JsString) :=
        match non_decimal base digits with
        | Some q => round_double q
        | None => NaN
        end in
      let decimal (negative : bool) (literal : JsString) :=
        if bool_decide (literal = str "Infinity") then Inf negative
        else match unsigned_decimal literal with
             | Some q => if negative then negate (round_double q) else round_double q
             | None => NaN
             end in
      match rest with
      | p :: digits =>
          if (c =? 48)%N && ((p =? 120)%N || (p =? 88)%N) then prefixed 16%N digits
          else if (c =? 48)%N && ((p =? 111)%N || (p =? 79)%N) then prefixed 8%N digits
          else if (c =? 48)%N && ((p =? 98)%N || (p =? 66)%N) then prefixed 2%N digits
          else if (c =? 43)%N then decimal false rest
          else if (c =? 45)%N then decimal true rest
          else decimal false (c :: rest)
      | [] => decimal false [c]
      end
  end.

(** *** ToNumber of the values of a parsed body *)

Definition has_own (name : string) (props : list (JsString * Value)) : bool :=
  existsb (fun p => bool_decide (fst p = str name)) props.

(** Whether [ToString] of a value returns. An object parsed from JSON
    holds no function, so an own [toString] property hides
    [Object.prototype.toString] behind a value that cannot be called,
    and the conversion ends in a [TypeError]; an array converts its
    elements in turn. *)
Fixpoint stringifies (v : Value) : bool :=
  match v with
  | Arr items => forallb stringifies items
  | Obj props => negb (has_own "toString" props)
  | _ => true
  end.

Definition not_primitive : string := "Cannot convert object to primitive value".

(** [StringToNumber (ToString v)]. The text of a number converts back
    to that number; [true], [false] and ["[object Object]"] are no
    numeric literals; an array is the texts of its elements joined by
    commas, with nothing for [null] and [undefined], so that the empty
    array gives the empty string, a single element its own text, and
    two or more elements a text with a comma, which is no numeric
    literal. *)
Fixpoint number_of_text (v : Value) : Completion Number :=
  match v with
  | Undefined | Null => Normal (Fin 0)
  | Bool _ => Normal NaN
  | Num n => Normal n
  | Str s => Normal (string_to_number s)
  | Arr [] => Normal (Fin 0)
  | Arr [item] => number_of_text item
  | Arr items => if forallb stringifies items then Normal NaN else Throw not_primitive
  | Obj props => if has_own "toString" props then Throw not_primitive else Normal NaN
  end.

(** [ToNumber (ToPrimitive v)], as the relational operators apply it
    to an operand that is compared with a number. *)
Definition to_number (v : Value) : Completion Number :=
  match v with
  | Undefined => Normal NaN
  | Null => Normal (Fin 0)
  | Bool b => Normal (Fin (if b then 1 else 0))
  | Num n => Normal n
  | Str s => Normal (string_to_number s)
  | Arr _ | Obj _ => number_of_text v
  end.

(** [x < y] and [x > y] on Numbers: false when either is NaN. *)
Definition lt (x y : Number) : bool :=
  match x, y with
  | NaN, _ | _, NaN => false
  | Inf true, Inf true => false
  | Inf true, _ => true
  | _, Inf true => false
  | Inf false, _ => false
  | _, Inf false => true
  | Fin a, Fin b => negb (Qle_bool b a)
  end.

Definition gt (x y : Number) : bool := lt y x.

End Js.

(** ** Responses built by the route handlers *)

Module WebResponse.

(** The statuses that allow no body. *)
Definition null_body_status (code : nat) : bool :=
  bool_decide (code ∈ [101; 103; 204; 205; 304]).

(** Whether [NextResponse.json(data, { status: code })] returns: the
    constructor of a response throws a [RangeError] for a status
    outside 200-599, and a [TypeError] when it is given a body with a
    status that allows none. *)
Definition accepts_body (code : nat) : bool :=
  (200 <=? code) && (code <=? 599) && negb (null_body_status code).

End WebResponse.

(** ** POST /api/decks (src/app/api/decks/route.ts) *)

Module Route.

(** The parsed JSON body, typed as [DeckRequest]. The annotation is
    erased at run time: each field holds whatever value the client
    sent, and [undefined] when it is absent. *)
Record Body : Type := {
  prompt : Js.Value;
  slideCount : Js.Value;
  audience : Js.Value;
  template : Js.Value
}.

(** [!body.prompt || !body.prompt.trim()]: whether the request is
    refused for its prompt. Only a string has a [trim] that can be
    called. *)
Definition prompt_refused (v : Js.Value) : Js.Completion bool :=
  if negb (Js.truthy v) then Js.Normal true
  else match v with
       | Js.Str s => Js.Normal (negb (Js.truthy (Js.Str (Js.trim s))))
       | _ => Js.Throw "body.prompt.trim is not a function"
       end.

(** [!body.slideCount || body.slideCount < 5 || body.slideCount > 30] *)
Definition slideCount_refused (v : Js.Value) : Js.Completion bool :=
  if negb (Js.truthy v) then Js.Normal true
  else match Js.to_number v with
       | Js.Throw message => Js.Throw message
       | Js.Normal x => Js.Normal (Js.lt x (Js.Fin 5) || Js.gt x (Js.Fin 30))
       end.

(** The answer of the FastAPI service to [fetch], as far as the
    handler looks at it. *)
Record DeckResponse : Type := {
  deckId : string;
  status : string;
  message : option string
}.

Inductive FetchOutcome : Type :=
| Responded (ok : bool) (http_status : nat) (text : string)
            (json : option DeckResponse)
| AbortError
| OtherError (message : string)
| Thrown.

Inductive Payload : Type :=
| ErrorPayload (error : string) (details : option string)
| Created (data : DeckResponse).

Record NextResponse : Type := { http : nat; payload : Payload }.

(** The [catch] block. *)
Definition on_exception (o : FetchOutcome) : NextResponse :=
  match o with
  | AbortError =>
      {| http := 504;
         payload := ErrorPayload
           "Request timeout - deck generation is taking too long" None |}
  | OtherError m =>
      {| http := 500; payload := ErrorPayload "Internal server error" (Some m) |}
  | _ =>
      {| http := 500; payload := ErrorPayload "Internal server error" None |}
  end.

(** What the handler answers once [fetch] has settled. A response
    with the status of the service cannot be built for every status;
    the exception ends in the [catch] block. *)
Definition relay (o : FetchOutcome) : NextResponse :=
  match o with
  | Responded false code text _ =>
      if WebResponse.accepts_body code then
        {| http := code; payload := ErrorPayload "Failed to create deck" (Some text) |}
      else on_exception (OtherError "Invalid response status code")
  | Responded true _ _ (Some data) => {| http := 200; payload := Created data |}
  | Responded true _ _ None => on_exception (OtherError "Unexpected token in JSON")
  | exn => on_exception exn
  end.

Section Handler.

(** The FastAPI service behind [fetch(`${FASTAPI_URL}/decks`, ...)]. *)
Variable fetch_decks : Body -> FetchOutcome.

(** The handler returns its response together with the list of
    requests it forwarded to the service. [None] stands for a body
    that [request.json()] cannot parse. A [TypeError] raised by a check
    is caught like any other exception. *)
Definition POST (request : option Body) : NextResponse * list Body :=
  match request with
  | None =>
      (on_exception (OtherError "Unexpected end of JSON input"), [])
  | Some body =>
      match prompt_refused (prompt body) with
      | Js.Throw message => (on_exception (OtherError message), [])
      | Js.Normal true =>
          ({| http := 400; payload := ErrorPayload "Prompt is required" None |}, [])
      | Js.Normal false =>
          match slideCount_refused (slideCount body) with
          | Js.Throw message => (on_exception (OtherError message), [])
          | Js.Normal true =>
              ({| http := 400;
                  payload := ErrorPayload "Slide count must be between 5 and 30" None |},
               [])
          | Js.Normal false => (relay (fetch_decks body), [body])
          end
      end
  end.

End Handler.

(** The body that [JSON.stringify] and [request.json()] make of a
    request with the slide count, audience and template of a form
    request and the given prompt. *)
Definition body_with (p : Js.JsString) (r : DeckForm.DeckRequest) : Body :=
  {| prompt := Js.Str p;
     slideCount := Js.Num (Js.Fin (inject_Z (DeckForm.req_slideCount r)));
     audience := Js.Str (Js.str (DeckForm.req_audience r));
     template := Js.Str (Js.str (DeckForm.req_template r)) |}.

(** The request shape the creation operation is said to check, and the
    ways in which a prompt or a slide count can be missing or out of
    range, stated on the values themselves. *)
Definition has_text (v : Js.Value) : Prop :=
  exists p c, v = Js.Str p /\ c ∈ p /\ Js.is_white_space c = false.

Definition no_text (v : Js.Value) : Prop :=
  v = Js.Undefined \/ v = Js.Null
  \/ exists p, v = Js.Str p /\ Forall (fun c => Js.is_white_space c = true) p.

Definition count_in_range (v : Js.Value) : Prop :=
  exists q, v = Js.Num (Js.Fin q) /\ (5 <= q)%Q /\ (q <= 30)%Q.

Definition count_out_of_range (v : Js.Value) : Prop :=
  v = Js.Undefined \/ v = Js.Null \/ v = Js.Num Js.NaN
  \/ (exists negative, v = Js.Num (Js.Inf negative))
  \/ exists q, v = Js.Num (Js.Fin q) /\ (q < 5 \/ 30 < q)%Q.

Definition one_of (values : list string) (v : Js.Value) : Prop :=
  exists s, s ∈ values /\ v = Js.Str (Js.str s).

Definition shape_valid (b : Body) : Prop :=
  count_in_range (slideCount b)
  /\ one_of Types.Audience_values (audience b)
  /\ one_of Types.Template_values (template b).

(** A service that accepts whatever it is sent, a request whose
    audience is none of the four, and one whose slide count is no
    number. *)
Definition sample_service (b : Body) : FetchOutcome :=
  Responded true 201 ""
    (Some {| deckId := "550e8400"; status := "outline";
             message := Some "Deck generation started" |}).

Definition request_for_kids : Body :=
  {| prompt := Js.Str (Js.str "AI in Healthcare");
     slideCount := Js.Num (Js.Fin 10);
     audience := Js.Str (Js.str "kids");
     template := Js.Str (Js.str "corporate") |}.

Definition request_for_abc_slides : Body :=
  {| prompt := Js.Str (Js.str "AI in Healthcare");
     slideCount := Js.Str (Js.str "abc");
     audience := Js.Str (Js.str "business");
     template := Js.Str (Js.str "corporate") |}.

End Route.

(** ** DeckStatus component (src/components/DeckStatus.tsx) *)

Module DeckStatusView.

(** [const statusSteps: DeckStatus[] = [...]], the literals as written. *)
Definition statusSteps : list string :=
  ["outline"; "analyze"; "content"; "charts"; "optimize"; "layout";
   "design"; "images"; "adjust"; "review"; "generating"; "done"].

(** [Array.prototype.indexOf]: the first position of [x], or -1. *)
Fixpoint indexOf (l : list string) (x : string) : Z :=
  match l with
  | [] => -1
  | y :: rest =>
      if decide (y = x) then 0
      else let i := indexOf rest x in if decide (i = -1)%Z then -1 else (i + 1)
  end%Z.

Definition getCurrentStepIndex (status : string) : Z :=
  if decide (status = "error") then 0%Z else indexOf statusSteps status.

(** The state shown for the step at [index] while the deck has the
    given status: the [status] field of each entry of [stepItems]. *)
Inductive StepState : Type := step_error | step_finish | step_process | step_wait.

Definition step_state (status : string) (index : Z) : StepState :=
  let currentStepIndex := getCurrentStepIndex status in
  if bool_decide (status = "error") && (index =? currentStepIndex)%Z then step_error
  else if (index <? currentStepIndex)%Z then step_finish
  else if (index =? currentStepIndex)%Z then step_process
  else step_wait.

Definition stepItems (status : string) : list StepState :=
  imap (fun index _ => step_state status (Z.of_nat index)) statusSteps.

End DeckStatusView.

(** ** README.md: documented constants of the back end *)

Module Readme.

(** "Text Truncation - MAX_BULLET_CHARS=80, MAX_PARAGRAPH_CHARS=600" *)
Definition MAX_BULLET_CHARS : nat := 80.
Definition MAX_PARAGRAPH_CHARS : nat := 600.

End Readme.

(** ** FASTAPI_SPEC.md: the reference implementation of the endpoints *)

Module FastApiSpec.

(** [class DeckRequest(BaseModel)] *)
Record DeckRequest : Type := {
  prompt : string;
  slideCount : Z;
  audience : string;
  template : string
}.

(** The dictionary kept per deck in [decks]; [file_path] and [error]
    are keys that appear only later in the pipeline. *)
Record DeckEntry : Type := {
  status : string;
  progress : Z;
  file_path : option string;
  error : option string
}.

(** The process state: the [decks] dictionary and the tasks handed to
    [BackgroundTasks], each a pending call
    [generate_deck(deck_id, request)]. *)
Record Server : Type := {
  decks : gmap string DeckEntry;
  background_tasks : list (string * DeckRequest)
}.

Record CreateResponse : Type := { deckId : string; resp_status : string }.

(** [create_deck]; [deck_id] is the value of [str(uuid.uuid4())]. *)
Definition create_deck (deck_id : string) (request : DeckRequest)
    (sv : Server) : CreateResponse * Server :=
  let entry := {| status := "outline"; progress := 0;
                  file_path := None; error := None |} in
  ({| deckId := deck_id; resp_status := "outline" |},
   {| decks := <[deck_id := entry]> (decks sv);
      background_tasks := background_tasks sv ++ [(deck_id, request)] |}).

Inductive HttpResult (A : Type) : Type :=
| Ok (body : A)
| HTTPException (status_code : nat) (detail : string).
Arguments Ok {A} body.
Arguments HTTPException {A} status_code detail.

(** [get_status]: [{"deckId": deck_id, **decks[deck_id]}] *)
Definition get_status (deck_id : string) (sv : Server)
    : HttpResult (string * DeckEntry) :=
  match decks sv !! deck_id with
  | None => HTTPException 404 "Deck not found"
  | Some entry => Ok (deck_id, entry)
  end.

(** [download_deck]: the path of the file and the name it is served
    under. A missing [file_path] key raises [KeyError], which the
    framework answers with 500. The document calls [FileResponse]
    without importing it; it is taken to be the [FileResponse] of
    [fastapi.responses], which answers 200 with the file at the path,
    under the file name given. As the document stands the name is
    unbound, and the last line raises [NameError] for every deck that
    is done. *)
Definition download_deck (deck_id : string) (sv : Server) : HttpResult (string * string) :=
  match decks sv !! deck_id with
  | None => HTTPException 404 "Deck not found"
  | Some entry =>
      if bool_decide (status entry <> "done") then HTTPException 400 "Deck not ready"
      else match file_path entry with
           | Some path => Ok (path, "presentation-" +:+ deck_id +:+ ".pptx")
           | None => HTTPException 500 "Internal Server Error"
           end
  end.

Definition empty_server : Server :=
  {| decks := ∅; background_tasks := [] |}.

Definition sample_request : DeckRequest :=
  {| prompt := "AI in Healthcare"; slideCount := 10;
     audience := "business"; template := "corporate" |}.

End FastApiSpec.

(** ** The job state machine *)

Module JobStateMachine.

(** Modelled from the spec: the job record of section 3 (the storage
    module of the back end is not among the sources). *)
Record Request : Type := {
  topic : string;
  slideCount : Z;
  audience : string;
  template : string
}.

Record Job : Type := {
  status : string;
  progress : nat;
  currentStepDescription : string;
  request : Request;
  artifactRef : option string;
  errorDetail : option string;
  createdAt : nat
}.

Inductive Error : Type := InvalidRequest | NotFound | InvalidTransition.

(** Job records by identifier; identifiers are handed out in
    sequence, so that each is unique. *)
Record Store : Type := { jobs : gmap nat Job; next_id : nat }.

Definition empty : Store := {| jobs := ∅; next_id := 0 |}.

Definition valid_request (r : Request) : bool :=
  bool_decide (5 <= slideCount r <= 30)%Z
  && Types.is_Audience (audience r) && Types.is_Template (template r).

(** The element that follows the first occurrence of [s] in [l]. *)
Fixpoint successor (l : list string) (s : string) : option string :=
  match l with
  | a :: (b :: _) as rest => if decide (a = s) then Some b else successor rest s
  | _ => None
  end.

Section Ordering.

(** The fixed linear ordering of the pipeline states: the first is
    the state a job is created in and the last is [done]. *)
Variable order : list string.

Definition initial : string := default "error" (head order).

(** Modelled from the spec: the job store of the back end
    (storage and workflow manager) is not among the sources; its
    operations follow section 4.1. [create] checks the request
    shape and stores a job in the first state with progress 0. *)
Definition create (r : Request) (now : nat) (st : Store) : Error + (nat * Store) :=
  if valid_request r then
    let id := next_id st in
    inr (id,
         {| jobs := <[id := {| status := initial; progress := 0;
                               currentStepDescription := "";
                               request := r; artifactRef := None;
                               errorDetail := None; createdAt := now |}]> (jobs st);
            next_id := S id |})
  else inl InvalidRequest.

(** Modelled from the spec: [advance] fails with [NotFound] on an
    unknown id and with [InvalidTransition] unless [toState] is the
    immediate successor of the current state and the progress
    value is not below the current one (nor above 100, the range of
    the field); on success status, progress and description are
    replaced together. *)
Definition advance (id : nat) (toState : string) (progressValue : nat)
    (stepDescription : string) (st : Store) : Error + Store :=
  match jobs st !! id with
  | None => inl NotFound
  | Some j =>
      if bool_decide (successor order (status j) = Some toState)
         && bool_decide (progress j <= progressValue <= 100)
      then inr {| jobs := <[id := {| status := toState;
                                     progress := progressValue;
                                     currentStepDescription := stepDescription;
                                     request := request j;
                                     artifactRef := artifactRef j;
                                     errorDetail := errorDetail j;
                                     createdAt := createdAt j |}]> (jobs st);
                  next_id := next_id st |}
      else inl InvalidTransition
  end.

(** Modelled from the spec: [fail] moves a job to [error] from any
    non-terminal state and does nothing to a job already in
    [error]. *)
Definition fail (id : nat) (detail : string) (st : Store) : Error + Store :=
  match jobs st !! id with
  | None => inl NotFound
  | Some j =>
      if bool_decide (status j = "error") then inr st
      else if bool_decide (status j = "done") then inl InvalidTransition
      else inr {| jobs := <[id := {| status := "error";
                                     progress := progress j;
                                     currentStepDescription := currentStepDescription j;
                                     request := request j;
                                     artifactRef := None;
                                     errorDetail := Some detail;
                                     createdAt := createdAt j |}]> (jobs st);
                  next_id := next_id st |}
  end.

(** Modelled from the spec: [complete] performs the last transition,
    from the state before [done] to [done], and sets the artifact
    reference (and the percentage of [done]). *)
Definition complete (id : nat) (ref : string) (st : Store) : Error + Store :=
  match jobs st !! id with
  | None => inl NotFound
  | Some j =>
      if bool_decide (successor order (status j) = Some "done")
      then inr {| jobs := <[id := {| status := "done";
                                     progress := 100;
                                     currentStepDescription := currentStepDescription j;
                                     request := request j;
                                     artifactRef := Some ref;
                                     errorDetail := None;
                                     createdAt := createdAt j |}]> (jobs st);
                  next_id := next_id st |}
      else inl InvalidTransition
  end.

Definition get (id : nat) (st : Store) : Error + Job :=
  match jobs st !! id with
  | None => inl NotFound
  | Some j => inr j
  end.

(** The calls a client and an orchestrator can make. *)
Inductive Op : Type :=
| Create (r : Request) (now : nat)
| Advance (id : nat) (toState : string) (progressValue : nat) (desc : string)
| Fail (id : nat) (detail : string)
| Complete (id : nat) (ref : string).

Definition step (op : Op) (st : Store) : Error + Store :=
  match op with
  | Create r now =>
      match create r now st with
      | inr (_, st') => inr st'
      | inl e => inl e
      end
  | Advance id to p d => advance id to p d st
  | Fail id detail => fail id detail st
  | Complete id ref => complete id ref st
  end.

(** A call that fails returns its error and leaves the store as it was. *)
Definition run_op (op : Op) (st : Store) : Store :=
  match step op st with
  | inr st' => st'
  | inl _ => st
  end.

Definition run (ops : list Op) (st : Store) : Store := foldl (flip run_op) st ops.

Definition status_at (id : nat) (st : Store) : option string :=
  status <$> jobs st !! id.

End Ordering.

(** The ordering and the percentages as the specification words them. *)
Definition spec_ordering : list string :=
  ["received"; "outline"; "analyze"; "content"; "charts"; "optimize";
   "layout"; "design"; "images"; "adjust"; "review"; "rendering"; "done"].

Definition spec_progress : list (string * Z) :=
  [("outline", 10); ("analyze", 18); ("content", 30); ("charts", 36);
   ("optimize", 42); ("layout", 52); ("design", 60); ("images", 70);
   ("adjust", 80); ("review", 90); ("rendering", 95); ("done", 100)]%Z.

End JobStateMachine.


(** ** Weighted slide allocation (the analyze stage) *)

Module Allocation.

(** Modelled from the spec: a section descriptor of the outline
    (section 3); the outline agent is not among the sources. *)
Record SectionDescriptor : Type := {
  title : string;
  keyPoints : list string;
  weight : nat
}.

Definition weights (outline : list SectionDescriptor) : list nat :=
  weight <$> outline.

(** The position of the highest weight (the first one, when several
    sections share it). *)
Fixpoint highest (ws : list nat) : nat :=
  match ws with
  | [] => 0
  | w :: rest => if forallb (fun x => x <=? w) rest then 0 else S (highest rest)
  end.

(** Modelled from the spec: the analyze stage of the workflow manager
    is not among the sources. Section 4.2 allocates the requested
    slide count across the sections proportionally to their weights,
    with a floor of one slide per section: every section first gets its
    one slide, and the slides that are left are shared in proportion to
    the weights, rounded down. *)
Definition proportional (ws : list nat) (slideCount : nat) : list nat :=
  let spare := slideCount - length ws in
  (fun w => 1 + spare * w / sum_list ws) <$> ws.

(** Modelled from the spec: "any rounding remainder [is] assigned to
    the highest-weight section". *)
Definition allocate (outline : list SectionDescriptor) (slideCount : nat) : list nat :=
  let ws := weights outline in
  let shares := proportional ws slideCount in
  let remainder := slideCount - sum_list shares in
  alter (Nat.add remainder) (highest ws) shares.

Definition sample_outline : list SectionDescriptor :=
  [ {| title := "Introduction"; keyPoints := ["context"]; weight := 1 |};
    {| title := "Methods"; keyPoints := ["data"; "model"]; weight := 3 |};
    {| title := "Results"; keyPoints := ["accuracy"; "cost"]; weight := 3 |};
    {| title := "Conclusion"; keyPoints := ["summary"]; weight := 1 |} ].

End Allocation.

(** ** The content-fit engine *)

Module ContentFitEngine.

(** Slide text as a sequence of characters. *)
Abbreviation Text := (list ascii).

Definition txt (s : string) : Text := String.list_ascii_of_string s.

Inductive BodyKind : Type :=
| bullet_list | two_column | comparison | quote | timeline
| narrative | image_text | table | chart.

(** Modelled from the spec: the slide model of section 3 (the models
    of the back end are not among the sources): the payload of a slide,
    one shape per layout variant, and the slide with its title,
    background image reference and font-size hint. *)
Inductive Body : Type :=
| BulletList (bullets : list Text)
| TwoColumn (left right : list Text)
| Comparison (sides : list (list Text))
| Quote (quotation : Text)
| Timeline (events : list Text)
| Narrative (paragraph : Text)
| ImageText (image : Text) (bullets : list Text)
| Table (rows : list (list Text))
| Chart (series : list (Text * nat)).

Definition bodyKind (b : Body) : BodyKind :=
  match b with
  | BulletList _ => bullet_list
  | TwoColumn _ _ => two_column
  | Comparison _ => comparison
  | Quote _ => quote
  | Timeline _ => timeline
  | Narrative _ => narrative
  | ImageText _ _ => image_text
  | Table _ => table
  | Chart _ => chart
  end.

Inductive SizeBucket : Type := large | medium | small.

Record SlideSpec : Type := {
  title : Text;
  body : Body;
  background : option Text;
  fontSize : SizeBucket
}.

Abbreviation Deck := (list SlideSpec).

(** The bullet strings and the narrative texts of a payload, to which
    the two character ceilings apply, and all of its texts. *)
Definition bullets_of (b : Body) : list Text :=
  match b with
  | BulletList bs => bs
  | TwoColumn l r => l ++ r
  | Comparison sides => concat sides
  | ImageText _ bs => bs
  | _ => []
  end.

Definition paragraphs_of (b : Body) : list Text :=
  match b with
  | Quote q => [q]
  | Narrative p => [p]
  | _ => []
  end.

Definition body_texts (b : Body) : list Text :=
  match b with
  | BulletList bs => bs
  | TwoColumn l r => l ++ r
  | Comparison sides => concat sides
  | Quote q => [q]
  | Timeline ev => ev
  | Narrative p => [p]
  | ImageText _ bs => bs
  | Table rows => concat rows
  | Chart series => fmap (M:=list) fst series
  end.

(** Modelled from the spec: the content-fit engine (layout adjustment,
    review and PPTX generator of the back end) is not among the
    sources; the rules follow section 4.3. The spec leaves
    "placeholder-like" open: here a text carries no content when it
    holds nothing but white space. *)
Definition blank (t : Text) : bool := forallb Ascii.is_space t.

Definition all_blank (items : list Text) : bool := forallb blank items.

(** Modelled from the spec: a payload whose required content is
    missing; a comparison requires exactly two sides. *)
Definition body_empty (b : Body) : bool :=
  match b with
  | BulletList bs => all_blank bs
  | TwoColumn l r => all_blank l || all_blank r
  | Comparison sides => negb (length sides =? 2) || existsb all_blank sides
  | Quote q => blank q
  | Timeline ev => all_blank ev
  | Narrative p => blank p
  | ImageText _ bs => all_blank bs
  | Table rows => forallb all_blank rows
  | Chart series => match series with [] => true | _ => false end
  end.

Definition slide_empty (s : SlideSpec) : bool := body_empty (body s).

Definition is_chart (s : SlideSpec) : bool :=
  match body s with Chart _ => true | _ => false end.

Definition chart_count (d : Deck) : nat := length (filter (fun s => is_chart s = true) d).

(** *** Empty-content repair *)

(** Modelled from the spec: fallback content is synthesized from the
    title of the slide; a slide without a usable title gets a fixed
    heading. *)
Definition fallback_text (title : Text) : Text :=
  if blank title then txt "Overview" else title.

Definition repair_items (fb : Text) (items : list Text) : list Text :=
  if all_blank items then [fb] else items.

Definition repair_text (fb t : Text) : Text := if blank t then fb else t.

(** Modelled from the spec: missing items of a comparison trigger the
    empty-content repair: the sides that are missing are added as empty
    ones, which the repair then fills. *)
Definition pad_sides (sides : list (list Text)) : list (list Text) :=
  sides ++ replicate (2 - length sides) [].

(** Modelled from the spec: empty-content repair, per layout variant. *)
Definition repair_body (fb : Text) (b : Body) : Body :=
  match b with
  | BulletList bs => BulletList (repair_items fb bs)
  | TwoColumn l r => TwoColumn (repair_items fb l) (repair_items fb r)
  | Comparison sides => Comparison (fmap (M:=list) (repair_items fb) (pad_sides sides))
  | Quote q => Quote (repair_text fb q)
  | Timeline ev => Timeline (repair_items fb ev)
  | Narrative p => Narrative (repair_text fb p)
  | ImageText img bs => ImageText img (repair_items fb bs)
  | Table rows => Table (if forallb all_blank rows then [[fb]] else rows)
  | Chart series => Chart (match series with [] => [(fb, 1)] | _ => series end)
  end.

(** *** Length repair *)

Definition ellipsis : Text := txt "...".

(** Modelled from the spec: the cut at a word boundary keeps the part
    of a text before its last white space; nothing is kept of a text
    without white space. *)
Fixpoint cut_at_word (t : Text) : Text :=
  match t with
  | [] => []
  | c :: rest => if existsb Ascii.is_space rest then c :: cut_at_word rest else []
  end.

(** Modelled from the spec: deterministic truncation at a word
    boundary with an ellipsis marker. The window leaves room for the
    marker and for the white space that ends the last word kept. *)
Definition truncate (ceiling : nat) (t : Text) : Text :=
  cut_at_word (take (ceiling - 2) t) ++ ellipsis.

Section Engine.

(** The compression delegate, after its bounded retries: a shorter
    text, or [None] when it is unavailable. *)
Variable compress : Text -> nat -> option Text.

(** The configured bounds on tables and timelines. *)
Variables max_rows max_cols max_events : positive.

(** The configured thresholds of the font-size buckets. *)
Variables large_upto medium_upto : nat.

(** Modelled from the spec: a text within its ceiling is left alone; a
    longer one is compressed by the delegate or, when the delegate is
    unavailable, truncated. The answer of the delegate is untrusted
    input: it is used only if it fits and carries content. *)
Definition fit_text (ceiling : nat) (t : Text) : Text :=
  if length t <=? ceiling then t
  else match compress t ceiling with
       | Some t' =>
           if (length t' <=? ceiling) && negb (blank t') then t'
           else truncate ceiling t
       | None => truncate ceiling t
       end.

Definition fit_bullet : Text -> Text := fit_text Readme.MAX_BULLET_CHARS.
Definition fit_paragraph : Text -> Text := fit_text Readme.MAX_PARAGRAPH_CHARS.

Definition fit_bullets (items : list Text) : list Text :=
  fmap (M:=list) fit_bullet items.

(** Modelled from the spec: length repair of every bullet string
    (bullet ceiling) and of every narrative text (paragraph ceiling). *)
Definition fit_body (b : Body) : Body :=
  match b with
  | BulletList bs => BulletList (fit_bullets bs)
  | TwoColumn l r => TwoColumn (fit_bullets l) (fit_bullets r)
  | Comparison sides => Comparison (fmap (M:=list) fit_bullets sides)
  | Quote q => Quote (fit_paragraph q)
  | Narrative p => Narrative (fit_paragraph p)
  | ImageText img bs => ImageText img (fit_bullets bs)
  | other => other
  end.

(** *** Kind-specific bounds *)

(** Modelled from the spec: tables are capped at a row and a column
    count, timelines at an event count, a comparison at two sides;
    excess items are dropped, later-listed ones first. *)

Definition bound_body (b : Body) : Body :=
  match b with
  | Table rows =>
      Table (take (Pos.to_nat max_rows)
               (fmap (M:=list) (take (Pos.to_nat max_cols)) rows))
  | Timeline ev => Timeline (take (Pos.to_nat max_events) ev)
  | Comparison sides => Comparison (take 2 sides)
  | other => other
  end.

(** *** Dynamic font-size hint *)

(** Modelled from the spec: the font-size bucket is a function of the
    number of characters of the slide alone. *)
Definition total_chars (title : Text) (b : Body) : nat :=
  length title + sum_list (fmap (M:=list) length (body_texts b)).

Definition bucket (chars : nat) : SizeBucket :=
  if chars <=? large_upto then large
  else if chars <=? medium_upto then medium
  else small.

(** *** The per-slide rules *)

(** Modelled from the spec: the rules applied to one slide, structural
    repair (bounds, empty content) before length repair; a background
    image is kept on the first slide only, and the font-size hint is
    computed from the repaired content. *)

Definition fit_slide (index : nat) (s : SlideSpec) : SlideSpec :=
  let b := fit_body (repair_body (fallback_text (title s)) (bound_body (body s))) in
  {| title := title s;
     body := b;
     background := if index =? 0 then background s else None;
     fontSize := bucket (total_chars (title s) b) |}.

(** *** Chart-count guarantee *)

Definition is_digit (c : ascii) : bool :=
  match Ascii.is_nat c with Some _ => true | None => false end.

(** How quantitative a slide looks: the digits in its text. *)
Definition quantitative (s : SlideSpec) : nat :=
  sum_list (fmap (M:=list)
              (fun t => length (filter (fun c => is_digit c = true) t))
              (body_texts (body s))).

(** The first number written in a text. *)
Fixpoint number_from (t : Text) (acc : nat) : nat :=
  match t with
  | c :: rest =>
      match Ascii.is_nat c with
      | Some n => number_from rest (10 * acc + n)
      | None => acc
      end
  | [] => acc
  end.

Fixpoint first_number (t : Text) : option nat :=
  match t with
  | [] => None
  | c :: rest => if is_digit c then Some (number_from t 0) else first_number rest
  end.

(** Modelled from the spec: a minimal series derived from the text of
    the slide: one point for each text that holds a number, and a
    single point named after the slide when no text does. *)
Definition synthesized_series (s : SlideSpec) : list (Text * nat) :=
  match omap (fun t => pair t <$> first_number t) (body_texts (body s)) with
  | [] => [(fallback_text (title s), 1)]
  | points => points
  end.

Definition to_chart (s : SlideSpec) : SlideSpec :=
  {| title := title s; body := Chart (synthesized_series s);
     background := background s; fontSize := fontSize s |}.

(** The position of the first highest score, if any score is positive. *)
Fixpoint most_quantitative (scores : list nat) : option nat :=
  match scores with
  | [] => None
  | n :: rest =>
      if (0 <? n) && forallb (fun m => m <=? n) rest then Some 0
      else S <$> most_quantitative rest
  end.

(** Modelled from the spec: the slide to convert is the non-title slide
    that looks most quantitative, and the last content slide when none
    holds a number; the first slide is the title slide. *)
Definition slide_to_convert (d : Deck) : option nat :=
  match d with
  | _ :: (_ :: _) as content =>
      Some (S (default (length content - 1)
                 (most_quantitative (fmap (M:=list) quantitative content))))
  | _ => None
  end.

Definition has_chart (d : Deck) : bool := existsb is_chart d.

(** Modelled from the spec: the chart-count guarantee, evaluated once
    on the whole deck: a deck without a chart slide has one slide
    converted, which then passes the per-slide rules again. *)
Definition chart_guarantee (d : Deck) : Deck :=
  if has_chart d then d
  else match slide_to_convert d with
       | Some i => alter (fun s => fit_slide i (to_chart s)) i d
       | None => d
       end.

(** *** The engine *)

(** Modelled from the spec: the per-slide rules on every slide, then
    the chart guarantee. *)

Definition engine (d : Deck) : Deck := chart_guarantee (imap fit_slide d).

(** *** Validity, stated independently of the repairs

    The invariants of section 3: bounds respected, no empty required
    content, texts within their ceilings, a background image on the
    first slide only, a font-size hint that matches the content, and at
    least one chart slide in a deck that has a content slide. *)

Definition within_bounds (b : Body) : Prop :=
  match b with
  | Table rows =>
      length rows <= Pos.to_nat max_rows
      /\ Forall (fun r => length r <= Pos.to_nat max_cols) rows
  | Timeline ev => length ev <= Pos.to_nat max_events
  | _ => True
  end.

Definition within_ceilings (b : Body) : Prop :=
  Forall (fun t => length t <= Readme.MAX_BULLET_CHARS) (bullets_of b)
  /\ Forall (fun t => length t <= Readme.MAX_PARAGRAPH_CHARS) (paragraphs_of b).

Definition slide_valid (index : nat) (s : SlideSpec) : Prop :=
  within_bounds (body s)
  /\ body_empty (body s) = false
  /\ within_ceilings (body s)
  /\ (index <> 0 -> background s = None)
  /\ fontSize s = bucket (total_chars (title s) (body s)).

Definition deck_valid (d : Deck) : Prop :=
  (forall i s, d !! i = Some s -> slide_valid i s)
  /\ (has_chart d = true \/ length d < 2).

End Engine.

(** A delegate that is never available, the bounds of a small
    configuration, and a deck as a generation service might return it:
    no chart, an empty slide, a bullet far beyond the ceiling, a
    background image on a content slide. *)
Definition unavailable (t : Text) (target : nat) : option Text := None.

Definition long_bullet : Text :=
  txt "Revenue grew by 45 percent over the previous fiscal year while operating costs stayed flat across all regions".

Definition sample_deck : Deck :=
  [ {| title := txt "AI in Healthcare"; body := BulletList [];
       background := Some (txt "cover.png"); fontSize := small |};
    {| title := txt "Market"; body := BulletList [long_bullet; txt "Adoption"];
       background := Some (txt "stray.png"); fontSize := small |};
    {| title := txt "Roadmap"; body := Timeline [txt "Pilot"; txt "Rollout"; txt "Scale"; txt "Review"];
       background := None; fontSize := large |};
    {| title := txt "   "; body := Narrative (txt " ");
       background := None; fontSize := large |};
    {| title := txt "Options"; body := Comparison [[txt "Build"]];
       background := None; fontSize := large |} ].

Definition sample_engine : Deck -> Deck :=
  engine unavailable 4%positive 3%positive 3%positive 120 400.

(** A deck that already satisfies every rule. *)
Definition tidy_deck : Deck :=
  [ {| title := txt "AI in Healthcare"; body := BulletList [txt "Agenda"];
       background := Some (txt "cover.png"); fontSize := large |};
    {| title := txt "Market"; body := Chart [(txt "2024", 45); (txt "2025", 60)];
       background := None; fontSize := large |} ].

End ContentFitEngine.

(** ** The terminal step of the orchestrator *)

Module Orchestrator.

Section TerminalStep.

Variable compress : ContentFitEngine.Text -> nat -> option ContentFitEngine.Text.
Variables max_rows max_cols max_events : positive.
Variables large_upto medium_upto : nat.

(** The document renderer: an artifact reference, or [None] for a
    render error. *)
Variable render : list ContentFitEngine.SlideSpec -> option string.

Variable order : list string.

(** Modelled from the spec: the stage orchestrator is not among the
    sources. The deck that the stages have built is a response of the
    generation service, checked against its expected shape (step 3 of
    the per-stage algorithm): a deck that does not have the number of
    slides the job asked for, the number the analyze stage allocates,
    is malformed and fails the job. After review the deck passes the
    engine in full and is handed to the renderer; on success the job is
    completed with the artifact, on failure it is failed. The result is
    the store and, for a completed job, the deck that was rendered. *)
Definition terminal_step (id : nat) (d : list ContentFitEngine.SlideSpec)
    (st : JobStateMachine.Store)
    : JobStateMachine.Store * option (list ContentFitEngine.SlideSpec) :=
  match JobStateMachine.jobs st !! id with
  | None => (st, None)
  | Some job =>
      if bool_decide (Z.of_nat (length d)
                      = JobStateMachine.slideCount (JobStateMachine.request job))
      then
        let finished :=
          ContentFitEngine.engine compress max_rows max_cols max_events
            large_upto medium_upto d in
        match render finished with
        | Some ref =>
            match JobStateMachine.complete order id ref st with
            | inr st' => (st', Some finished)
            | inl _ => (st, None)
            end
        | None =>
            (JobStateMachine.run_op order (JobStateMachine.Fail id "render error") st,
             None)
        end
      else
        (JobStateMachine.run_op order
           (JobStateMachine.Fail id "malformed response: slide count") st,
         None)
  end.

End TerminalStep.

(** The scenario of section 8: a request for five slides, and the calls
    that take its job through every stage up to rendering, with the
    percentages of section 4.1; a renderer that always succeeds. *)
Definition scenario_request : JobStateMachine.Request :=
  {| JobStateMachine.topic := "AI in Healthcare"; JobStateMachine.slideCount := 5;
     JobStateMachine.audience := "business"; JobStateMachine.template := "corporate" |}.

Definition scenario_run : list JobStateMachine.Op :=
  [JobStateMachine.Create scenario_request 0;
   JobStateMachine.Advance 0 "outline" 10 "outline ready";
   JobStateMachine.Advance 0 "analyze" 18 "slides allocated";
   JobStateMachine.Advance 0 "content" 30 "content generated";
   JobStateMachine.Advance 0 "charts" 36 "charts generated";
   JobStateMachine.Advance 0 "optimize" 42 "content optimized";
   JobStateMachine.Advance 0 "layout" 52 "layouts selected";
   JobStateMachine.Advance 0 "design" 60 "design planned";
   JobStateMachine.Advance 0 "images" 70 "images found";
   JobStateMachine.Advance 0 "adjust" 80 "layout adjusted";
   JobStateMachine.Advance 0 "review" 90 "review passed";
   JobStateMachine.Advance 0 "rendering" 95 "rendering"].

Definition sample_render (d : list ContentFitEngine.SlideSpec) : option string :=
  Some "presentation-0.pptx".

End Orchestrator.

(** ** The earlier DeckStatus component (five-step pipeline) *)

Module LegacyStatusView.

(** [const statusSteps: DeckStatus[] = ["outline", "plan", "fix", "render", "done"]] *)
Definition statusSteps : list string := ["outline"; "plan"; "fix"; "render"; "done"].

End LegacyStatusView.

(** ** FASTAPI_SPEC.md: the generation pipeline *)

Module FastApiPipeline.

Import FastApiSpec.

(** A call that raises is [inl] of the text of the exception. *)
Abbreviation Raises A := (string + A)%type.

(** [update_status(deck_id, status, progress, step)] is called by
    [generate_deck] but not defined in the document: it is taken to
    overwrite the status and progress keys of the deck's dictionary;
    the step text is not tracked. *)
Definition update_status (status : string) (progress : Z) (e : DeckEntry) : DeckEntry :=
  {| FastApiSpec.status := status; FastApiSpec.progress := progress;
     file_path := file_path e; error := error e |}.

(** [decks[deck_id]["status"] = "done"; ...["file_path"] = file_path;
    ...["progress"] = 100] *)
Definition finished (path : string) (e : DeckEntry) : DeckEntry :=
  {| FastApiSpec.status := "done"; FastApiSpec.progress := 100;
     file_path := Some path; error := error e |}.

(** The [except] block:
    [decks[deck_id]["status"] = "error"; decks[deck_id]["error"] = str(e)] *)
Definition failed (message : string) (e : DeckEntry) : DeckEntry :=
  {| FastApiSpec.status := "error"; FastApiSpec.progress := FastApiSpec.progress e;
     file_path := file_path e; error := Some message |}.

Definition write (deck_id : string) (f : DeckEntry -> DeckEntry) (sv : Server) : Server :=
  {| decks := alter f deck_id (decks sv); background_tasks := background_tasks sv |}.

Section Pipeline.

(** The intermediate artifacts and the four awaited calls. *)
Variables Outline Content Optimized : Type.
Variable generate_outline : DeckRequest -> Raises Outline.
Variable generate_content : Outline -> DeckRequest -> Raises Content.
Variable fix_overflow : Content -> string -> Raises Optimized.
Variable render_pptx : Optimized -> string -> string -> Raises string.

(** [generate_deck]: the successive states of the server, one after
    each point at which the coroutine yields or ends (the writes
    between two awaits are seen together). For a deck that is not in
    [decks] every write raises [KeyError], also inside the [except]
    block, and nothing is stored. *)
Definition generate_deck (deck_id : string) (request : DeckRequest) (sv : Server)
    : list Server :=
  match decks sv !! deck_id with
  | None => []
  | Some _ =>
      let s1 := write deck_id (update_status "outline" 20) sv in
      match generate_outline request with
      | inl e => [s1; write deck_id (failed e) s1]
      | inr outline =>
          let s2 := write deck_id (update_status "plan" 40) s1 in
          match generate_content outline request with
          | inl e => [s1; s2; write deck_id (failed e) s2]
          | inr content =>
              let s3 := write deck_id (update_status "fix" 60) s2 in
              match fix_overflow content (template request) with
              | inl e => [s1; s2; s3; write deck_id (failed e) s3]
              | inr optimized =>
                  let s4 := write deck_id (update_status "render" 80) s3 in
                  match render_pptx optimized (template request) deck_id with
                  | inl e => [s1; s2; s3; s4; write deck_id (failed e) s4]
                  | inr path => [s1; s2; s3; s4; write deck_id (finished path) s4]
                  end
              end
          end
      end
  end.

(** The state the task leaves behind. *)
Definition after_generate (deck_id : string) (request : DeckRequest) (sv : Server) : Server :=
  default sv (last (generate_deck deck_id request sv)).

(** The four calls in sequence: the path of the file, or the text of
    the first exception. *)
Definition rendered (deck_id : string) (request : DeckRequest) : Raises string :=
  match generate_outline request with
  | inr outline =>
      match generate_content outline request with
      | inr content =>
          match fix_overflow content (template request) with
          | inr optimized => render_pptx optimized (template request) deck_id
          | inl e => inl e
          end
      | inl e => inl e
      end
  | inl e => inl e
  end.

(** The states of the server over the lifetime of a job: the one
    [create_deck] leaves, then those of the task it has queued. *)
Definition lifetime (deck_id : string) (request : DeckRequest) (sv : Server)
    : list Server :=
  let created := snd (create_deck deck_id request sv) in
  created :: generate_deck deck_id request created.

End Pipeline.

(** "Pipeline Flow": the steps in their order, as the status values of
    the endpoints, and the progress [generate_deck] writes with each. *)
Definition pipeline_flow : list string := ["outline"; "plan"; "fix"; "render"; "done"].

Definition progress_steps : list (string * Z) :=
  [("outline", 20); ("plan", 40); ("fix", 60); ("render", 80); ("done", 100)]%Z.

(** What a poll of the status endpoint shows of a deck. *)
Definition observed (deck_id : string) (sv : Server) : option (string * Z) :=
  (fun e => (FastApiSpec.status e, FastApiSpec.progress e)) <$> decks sv !! deck_id.

(** The states recorded for a job: its first status, then each status
    that differs from the one before it. *)
Fixpoint changes (previous : option string) (seen : list string) : list string :=
  match seen with
  | [] => []
  | s :: rest =>
      (if decide (Some s = previous) then [] else [s]) ++ changes (Some s) rest
  end.

Definition recorded (seen : list (option (string * Z))) : list string :=
  changes None (omap (fmap fst) seen).

(** What one deck shows in a state of the server. *)
Definition status_in (deck_id : string) (sv : Server) : option string :=
  FastApiSpec.status <$> decks sv !! deck_id.

(** Sample steps: an outline of titles, and a renderer that fails. *)
Definition outline_ok (r : DeckRequest) : Raises (list string) := inr ["Intro"; "Results"].
Definition content_ok (o : list string) (r : DeckRequest) : Raises (list string) := inr o.
Definition overflow_ok (c : list string) (t : string) : Raises (list string) := inr c.
Definition render_ok (c : list string) (t deck_id : string) : Raises string :=
  inr ("output/" +:+ deck_id +:+ ".pptx").
Definition render_fails (c : list string) (t deck_id : string) : Raises string :=
  inl "Template not found".

Definition created_d1 : Server := snd (create_deck "d1" sample_request empty_server).

Definition done_d1 : Server :=
  after_generate (list string) (list string) (list string)
    outline_ok content_ok overflow_ok render_ok "d1" sample_request created_d1.

End FastApiPipeline.

(** ** The HTTP layer between the browser, the route handlers and FastAPI *)

Module Http.

(** [response.ok] *)
Definition ok (code : nat) : bool := (200 <=? code) && (code <=? 299).

(** What [fetch] gives: a response with its status code, its body as
    text and, when the body parses, as JSON; or an exception. *)
Inductive Fetched (A : Type) : Type :=
| Responded (code : nat) (text : string) (json : option A)
| Threw.
Arguments Responded {A} code text json.
Arguments Threw {A}.

(** [DeckStatusResponse] of types.ts. *)
Record DeckStatusResponse : Type := {
  deckId : string;
  status : string;
  progress : option Z;
  currentStep : option string;
  error : option string
}.

(** [{"deckId": deck_id, **decks[deck_id]}] as the front end reads it. *)
Definition status_json (deck_id : string) (e : FastApiSpec.DeckEntry)
    : DeckStatusResponse :=
  {| deckId := deck_id; status := FastApiSpec.status e;
     progress := Some (FastApiSpec.progress e);
     currentStep := None; error := FastApiSpec.error e |}.

(** How the FastAPI application answers over HTTP: a returned
    dictionary as 200 with that JSON, an [HTTPException] as its status
    code with the detail as body. *)
Definition serve_status (sv : FastApiSpec.Server) (deck_id : string)
    : Fetched DeckStatusResponse :=
  match FastApiSpec.get_status deck_id sv with
  | FastApiSpec.Ok (id, e) => Responded 200 "" (Some (status_json id e))
  | FastApiSpec.HTTPException code detail => Responded code detail None
  end.

(** The characters a URL carries as they are within one path segment:
    letters, digits, hyphen, full stop, underscore and tilde. *)
Definition unreserved (c : ascii) : bool :=
  let n := nat_of_ascii c in
  ((48 <=? n) && (n <=? 57)) || ((65 <=? n) && (n <=? 90))
  || ((97 <=? n) && (n <=? 122))
  || (n =? 45) || (n =? 46) || (n =? 95) || (n =? 126).

Fixpoint unreserved_only (s : string) : bool :=
  match s with
  | EmptyString => true
  | String c rest => unreserved c && unreserved_only rest
  end.

(** An id that a URL [.../decks/${id}/download] hands to the handler of
    [/decks/{deck_id}/download] as it is: not empty, of unreserved
    characters, and not a dot segment. The ids of [create_deck], the
    text of a UUID, are such. *)
Definition plain_id (id : string) : bool :=
  negb (bool_decide (id = "")) && unreserved_only id
  && negb (bool_decide (id = ".")) && negb (bool_decide (id = "..")).

(** The file response of [download_deck], requested for a plain id: the
    blob is named by the path of the stored file. *)
Definition serve_download (sv : FastApiSpec.Server) (deck_id : string) : Fetched string :=
  match FastApiSpec.download_deck deck_id sv with
  | FastApiSpec.Ok (path, name) => Responded 200 path (Some path)
  | FastApiSpec.HTTPException code detail => Responded code detail None
  end.

End Http.

(** ** GET /api/decks/[id]/status *)

Module StatusRoute.

Inductive Payload : Type :=
| Data (data : Http.DeckStatusResponse)
| ErrorJson (error : string) (details : option string).

Record NextResponse : Type := { http : nat; payload : Payload }.

Definition GET (fetch_status : string -> Http.Fetched Http.DeckStatusResponse)
    (id : string) : NextResponse :=
  match fetch_status id with
  | Http.Responded code text json =>
      if Http.ok code then
        match json with
        | Some data => {| http := 200; payload := Data data |}
        | None => {| http := 500; payload := ErrorJson "Internal server error" None |}
        end
      else if WebResponse.accepts_body code then
        {| http := code;
           payload := ErrorJson "Failed to get deck status" (Some text) |}
      else {| http := 500; payload := ErrorJson "Internal server error" None |}
  | Http.Threw => {| http := 500; payload := ErrorJson "Internal server error" None |}
  end.

End StatusRoute.

(** ** GET /api/decks/[id]/download *)

Module DownloadRoute.

Inductive Body : Type :=
| Blob (blob : string)
| ErrorJson (error : string) (details : option string).

Record NextResponse : Type := {
  http : nat;
  headers : list (string * string);
  body : Body
}.

Definition double_quote : string := String (ascii_of_nat 34) EmptyString.

(** [`attachment; filename="presentation-${id}.pptx"`] *)
Definition content_disposition (id : string) : string :=
  "attachment; filename=" +:+ double_quote +:+ "presentation-" +:+ id +:+ ".pptx"
  +:+ double_quote.

Definition pptx_type : string :=
  "application/vnd.openxmlformats-officedocument.presentationml.presentation".

(** What [headers.set] refuses in a value, with a [TypeError]: NUL, line
    feed and carriage return. (It refuses a code unit above U+00FF as
    well; the strings here hold none.) It first strips white space
    from both ends of the value; the two values set below begin with a
    letter and end with a letter or a quote. *)
Definition forbidden_in_header (c : ascii) : bool :=
  let n := nat_of_ascii c in (n =? 0) || (n =? 10) || (n =? 13).

Fixpoint header_value_ok (value : string) : bool :=
  match value with
  | EmptyString => true
  | String c rest => negb (forbidden_in_header c) && header_value_ok rest
  end.

(** The blob of a response is its body, whatever it holds. A
    [TypeError] of [headers.set] is caught by the [catch] of the
    handler. *)
Definition GET (fetch_download : string -> Http.Fetched string) (id : string)
    : NextResponse :=
  match fetch_download id with
  | Http.Responded code text _ =>
      if Http.ok code then
        if header_value_ok pptx_type && header_value_ok (content_disposition id) then
          {| http := 200;
             headers := [("Content-Type", pptx_type);
                         ("Content-Disposition", content_disposition id)];
             body := Blob text |}
        else {| http := 500; headers := [];
                body := ErrorJson "Internal server error" None |}
      else if WebResponse.accepts_body code then
        {| http := code; headers := [];
           body := ErrorJson "Failed to download deck" (Some text) |}
      else {| http := 500; headers := [];
              body := ErrorJson "Internal server error" None |}
  | Http.Threw =>
      {| http := 500; headers := []; body := ErrorJson "Internal server error" None |}
  end.

End DownloadRoute.

(** ** The page (src/app/page.tsx) *)

Module Page.

(** The React state of [Home], with the polling timer of the effect and
    the number of times the list of decks was reloaded. *)
Record State : Type := {
  deckId : option string;
  isLoading : bool;
  statusData : option Http.DeckStatusResponse;
  polling : bool;
  list_reloads : nat
}.

Definition initial : State :=
  {| deckId := None; isLoading := false; statusData := None;
     polling := false; list_reloads := 0 |}.

(** A string as a condition: the empty string is falsy. *)
Definition truthy (s : string) : bool := negb (bool_decide (s = "")).

Definition error_status (id message : string) : Http.DeckStatusResponse :=
  {| Http.deckId := id; Http.status := "error"; Http.progress := None;
     Http.currentStep := None; Http.error := Some message |}.

(** [handleSubmit], given the answer of POST /api/decks ([None] when
    [fetch] throws). On success the new [deckId] triggers the polling
    effect, which does nothing for a falsy id; the effect does not run
    again when the id is the one already held. *)
Definition handleSubmit (answer : option Route.NextResponse) (st : State) : State :=
  match answer with
  | Some r =>
      if Http.ok (Route.http r) then
        let new_id :=
          match Route.payload r with
          | Route.Created data => Some (Route.deckId data)
          | Route.ErrorPayload _ _ => None
          end in
        {| deckId := new_id; isLoading := true; statusData := None;
           polling :=
             if bool_decide (new_id = deckId st) then polling st
             else from_option truthy false new_id;
           list_reloads := list_reloads st |}
      else
        {| deckId := deckId st; isLoading := false;
           statusData := Some (error_status "" "Failed to create deck. Please try again.");
           polling := polling st; list_reloads := list_reloads st |}
  | None =>
      {| deckId := deckId st; isLoading := false;
         statusData := Some (error_status "" "Failed to create deck. Please try again.");
         polling := polling st; list_reloads := list_reloads st |}
  end.

(** How one call of [pollStatus] ends: with the status it read, or in
    its [catch] block. *)
Inductive PollOutcome : Type :=
| Answered (data : Http.DeckStatusResponse)
| Failed.

Definition terminal (status : string) : bool :=
  bool_decide (status = "done") || bool_decide (status = "error").

(** The part of [pollStatus] that runs once the answer is there; it
    runs to its end without yielding. *)
Definition pollStatus (id : string) (o : PollOutcome) (st : State) : State :=
  match o with
  | Answered data =>
      if terminal (Http.status data) then
        {| deckId := deckId st; isLoading := false; statusData := Some data;
           polling := false; list_reloads := S (list_reloads st) |}
      else
        {| deckId := deckId st; isLoading := isLoading st; statusData := Some data;
           polling := polling st; list_reloads := list_reloads st |}
  | Failed =>
      {| deckId := deckId st; isLoading := false;
         statusData :=
           Some (error_status id "Failed to get status. Please refresh the page.");
         polling := false; list_reloads := list_reloads st |}
  end.

(** The outcome of a poll that goes through the status route. *)
Definition outcome_of (r : StatusRoute.NextResponse) : PollOutcome :=
  if Http.ok (StatusRoute.http r) then
    match StatusRoute.payload r with
    | StatusRoute.Data data => Answered data
    | StatusRoute.ErrorJson _ _ => Failed
    end
  else Failed.

Definition poll_through (fetch_status : string -> Http.Fetched Http.DeckStatusResponse)
    (id : string) (st : State) : State :=
  pollStatus id (outcome_of (StatusRoute.GET fetch_status id)) st.

(** The state in which the polling of deck [id] starts. *)
Definition polling_started (id : string) : State :=
  {| deckId := Some id; isLoading := true; statusData := None;
     polling := true; list_reloads := 0 |}.

(** The page once it has read that the sample deck is done. *)
Definition d1_done : State :=
  poll_through (Http.serve_status FastApiPipeline.done_d1) "d1" (polling_started "d1").

(** The argument [handleDownload] is called with: nothing, a deck id
    (the button of a row of DeckList calls [onDownload(record.deckId)]),
    or the click event (the button of DeckStatus has
    [onClick={onDownload}], and a button hands its handler the event). *)
Inductive DownloadArg : Type :=
| NoArg
| IdArg (id : string)
| ClickEvent.

(** [downloadDeckId || deckId], as the text it becomes in a template
    literal; [None] when it is falsy. An object is truthy and becomes
    ["[object Object]"]. *)
Definition held (o : option string) : option string :=
  match o with
  | Some s => if truthy s then Some s else None
  | None => None
  end.

Definition targetDeckId (arg : DownloadArg) (st : State) : option string :=
  match arg with
  | ClickEvent => Some "[object Object]"
  | IdArg id => if truthy id then Some id else held (deckId st)
  | NoArg => held (deckId st)
  end.

Inductive DownloadResult : Type :=
| Nothing
| Saved (filename : string) (content : DownloadRoute.Body)
| Alerted (message : string).

(** [handleDownload], given what GET /api/decks/[id]/download answers. *)
Definition handleDownload (route : string -> DownloadRoute.NextResponse)
    (arg : DownloadArg) (st : State) : DownloadResult :=
  match targetDeckId arg st with
  | None => Nothing
  | Some target =>
      let r := route target in
      if Http.ok (DownloadRoute.http r) then
        Saved ("presentation-" +:+ target +:+ ".pptx") (DownloadRoute.body r)
      else Alerted "Failed to download deck. Please try again."
  end.

(** An outcome after which [pollStatus] clears the timer. *)
Definition stops (o : PollOutcome) : bool :=
  match o with
  | Answered data => terminal (Http.status data)
  | Failed => true
  end.

Definition answered_terminal (o : PollOutcome) : bool :=
  match o with
  | Answered data => terminal (Http.status data)
  | Failed => false
  end.

(** A session of polling: the outcomes in the order they are processed. *)
Definition poll_all (id : string) (os : list PollOutcome) (st : State) : State :=
  foldl (fun st o => pollStatus id o st) st os.

(** Polls that read the given successive states of the FastAPI server. *)
Definition poll_states (id : string) (states : list FastApiSpec.Server) (st : State)
    : State :=
  foldl (fun st sv => poll_through (Http.serve_status sv) id st) st states.

End Page.

(** ** What the DeckStatus component shows besides the steps *)

Module StatusPanel.

(** [progress !== undefined && progress > 0 && status !== "done" && status !== "error"] *)
Definition shows_progress (status : string) (progress : option Z) : bool :=
  match progress with
  | Some p => (0 <? p)%Z && negb (bool_decide (status = "done"))
              && negb (bool_decide (status = "error"))
  | None => false
  end.

(** [status === "done" && deckId] *)
Definition shows_download (status : string) (deckId : option string) : bool :=
  bool_decide (status = "done") && from_option Page.truthy false deckId.

(** What the panel shows for the state of the page: [Home] renders the
    component only when there is status data, with
    [deckId={deckId || undefined}]. *)
Definition progress_bar (st : Page.State) : bool :=
  match Page.statusData st with
  | Some d => shows_progress (Http.status d) (Http.progress d)
  | None => false
  end.

Definition download_button (st : Page.State) : bool :=
  match Page.statusData st with
  | Some d => shows_download (Http.status d) (Page.deckId st)
  | None => false
  end.

(** The button has [onClick={onDownload}]: a click calls the handler
    of the page with the event. *)
Definition click_download (route : string -> DownloadRoute.NextResponse)
    (st : Page.State) : option Page.DownloadResult :=
  if download_button st then Some (Page.handleDownload route Page.ClickEvent st)
  else None.

End StatusPanel.

(** ** The rows of DeckList *)

Module DeckListRow.

(** [DeckItem], with the fields the columns read. *)
Record DeckItem : Type := {
  deckId : string;
  status : string;
  progress : Z
}.

Inductive Action : Type :=
| DownloadButton
| ErrorText
| ProcessingTag.

(** The Action column. *)
Definition action (record : DeckItem) : Action :=
  if bool_decide (status record = "done") then DownloadButton
  else if bool_decide (status record = "error") then ErrorText
  else ProcessingTag.

(** [onClick={() => onDownload(record.deckId)}] *)
Definition click_download (route : string -> DownloadRoute.NextResponse)
    (record : DeckItem) (st : Page.State) : option Page.DownloadResult :=
  match action record with
  | DownloadButton => Some (Page.handleDownload route (Page.IdArg (deckId record)) st)
  | _ => None
  end.

End DeckListRow.
(** * Properties *)

(** ** DeckList *)

Lemma statusColors_keys :
  dom DeckList.statusColors = list_to_set DeckList.legacy_keys.
Proof. vm_compute. reflexivity. Qed.

Lemma statusLabels_keys :
  dom DeckList.statusLabels = list_to_set DeckList.legacy_keys.
Proof. vm_compute. reflexivity. Qed.

(** C10. For a deck whose status is analyze, content, optimize, layout
    or review (all values of the [DeckStatus] type), neither
    [statusColors] nor [statusLabels] has a matching key, since their
    keys are outline, plan, fix, render, done and error; the colour and
    the label of the rendered tag are undefined. *)
Theorem DeckList_status_lookup_undefined (s : Types.DeckStatus) :
  s ∈ [Types.analyze; Types.content; Types.optimize; Types.layout; Types.review] ->
  Types.is_DeckStatus (Types.status_name s) = true
  /\ DeckList.statusColors !! Types.status_name s = None
  /\ DeckList.statusLabels !! Types.status_name s = None
  /\ DeckList.render_status (Types.status_name s)
     = {| DeckList.color := None; DeckList.children := None |}
  /\ dom DeckList.statusColors = list_to_set DeckList.legacy_keys
  /\ dom DeckList.statusLabels = list_to_set DeckList.legacy_keys.
Proof.
  intros Hs.
  assert (Hcases : s = Types.analyze \/ s = Types.content \/ s = Types.optimize
                   \/ s = Types.layout \/ s = Types.review).
  { rewrite !elem_of_cons, elem_of_nil in Hs. tauto. }
  split; [destruct s; reflexivity|].
  repeat split; try apply statusColors_keys; try apply statusLabels_keys;
    destruct Hcases as [->|[->|[->|[->| ->]]]]; vm_compute; reflexivity.
Qed.

Lemma DeckList_status_lookup_undefined_witness :
  DeckList.render_status "analyze"
  = {| DeckList.color := None; DeckList.children := None |}.
Proof.
  apply (DeckList_status_lookup_undefined Types.analyze).
  compute_done.
Defined.

(** ** DeckForm *)


Lemma form_invariant_initial : DeckForm.form_invariant DeckForm.initialValues.
Proof.
  unfold DeckForm.form_invariant, DeckForm.slider_min, DeckForm.slider_max. simpl.
  split; [lia|]. split; compute_done.
Qed.

Lemma slider_value_range (p : Z) :
  (DeckForm.slider_min <= DeckForm.slider_value p <= DeckForm.slider_max)%Z.
Proof. unfold DeckForm.slider_value, DeckForm.slider_min, DeckForm.slider_max. lia. Qed.

Lemma form_invariant_handle (v : DeckForm.FormValues) (e : DeckForm.Event) :
  DeckForm.form_invariant v -> DeckForm.form_invariant (DeckForm.handle v e).
Proof.
  intros (Hn & Ha & Ht). destruct e as [text|p|i|i]; simpl.
  - repeat split; simpl; tauto.
  - split; [apply slider_value_range|]. simpl. tauto.
  - destruct (DeckForm.audience_options !! i) as [a|] eqn:Hi.
    + split; [exact Hn|]. split; [|exact Ht].
      simpl. eapply list_elem_of_lookup_2, Hi.
    + repeat split; tauto.
  - destruct (DeckForm.template_options !! i) as [t|] eqn:Hi.
    + split; [exact Hn|]. split; [exact Ha|].
      simpl. eapply list_elem_of_lookup_2, Hi.
    + repeat split; tauto.
Qed.

Lemma form_invariant_foldl (events : list DeckForm.Event) (v : DeckForm.FormValues) :
  DeckForm.form_invariant v -> DeckForm.form_invariant (foldl DeckForm.handle v events).
Proof.
  revert v. induction events as [|e events IH]; intros v Hv; simpl; [exact Hv|].
  apply IH, form_invariant_handle, Hv.
Qed.

Lemma slideCount_untouched (events : list DeckForm.Event) (v : DeckForm.FormValues) :
  (forall p, DeckForm.MoveSlider p ∉ events) ->
  DeckForm.slideCount (foldl DeckForm.handle v events) = DeckForm.slideCount v.
Proof.
  revert v. induction events as [|e events IH]; intros v Hno; simpl; [reflexivity|].
  rewrite IH.
  - destruct e as [text|p|i|i]; simpl; try reflexivity.
    + exfalso. apply (Hno p). left.
    + destruct (DeckForm.audience_options !! i); reflexivity.
    + destruct (DeckForm.template_options !! i); reflexivity.
  - intros p Hp. apply (Hno p). right. exact Hp.
Qed.

Lemma submit_fields (v : DeckForm.FormValues) (r : DeckForm.DeckRequest) :
  DeckForm.submit v = Some r ->
  DeckForm.req_slideCount r = DeckForm.slideCount v
  /\ DeckForm.req_audience r = DeckForm.audience v
  /\ DeckForm.req_template r = DeckForm.template v.
Proof.
  unfold DeckForm.submit. destruct (DeckForm.prompt v) as [p|]; [|discriminate].
  destruct (_ && _); [|discriminate]. intros [= <-]. simpl. auto.
Qed.

Lemma offered_templates_are_Templates (t : string) :
  t ∈ DeckForm.template_options -> t ∈ Types.Template_values.
Proof.
  unfold DeckForm.template_options, Types.Template_values.
  rewrite !elem_of_cons, !elem_of_nil. tauto.
Qed.

Lemma offered_audiences_are_Audiences (a : string) :
  a ∈ DeckForm.audience_options -> a ∈ Types.Audience_values.
Proof. unfold DeckForm.audience_options, Types.Audience_values. tauto. Qed.

Lemma unoffered_templates_strict (t : string) :
  t ∈ DeckForm.unoffered_templates ->
  t ∈ Types.Template_values /\ t ∉ DeckForm.template_options.
Proof.
  unfold DeckForm.unoffered_templates, Types.Template_values, DeckForm.template_options.
  rewrite !elem_of_cons, !elem_of_nil.
  intros [->|[->|[->|[->|[]]]]]; split; try tauto;
    intros [H|[H|[H|[H|[]]]]]; discriminate H.
Qed.

(** C9. Every request submitted through the form satisfies the create
    precondition: the slide count lies in [5,30] (and is 10 when the
    slider was not moved), the audience is one of
    technical/business/academic/general, and the template is one of
    corporate/academic/startup/minimal, a strict subset of the eight
    values of [Template], so that creative, nature, futuristic and
    luxury are never produced. *)
Theorem DeckForm_submits_valid_requests
    (events : list DeckForm.Event) (r : DeckForm.DeckRequest) :
  DeckForm.submit (DeckForm.after events) = Some r ->
  DeckForm.create_precondition r
  /\ (5 <= DeckForm.req_slideCount r <= 30)%Z
  /\ ((forall p, DeckForm.MoveSlider p ∉ events) -> DeckForm.req_slideCount r = 10%Z)
  /\ DeckForm.req_audience r ∈ ["technical"; "business"; "academic"; "general"]
  /\ DeckForm.req_template r ∈ ["corporate"; "academic"; "startup"; "minimal"]
  /\ (DeckForm.req_template r ∉ ["creative"; "nature"; "futuristic"; "luxury"])
  /\ (forall t, t ∈ DeckForm.template_options -> t ∈ Types.Template_values)
  /\ (forall t, t ∈ ["creative"; "nature"; "futuristic"; "luxury"] ->
        t ∈ Types.Template_values /\ t ∉ DeckForm.template_options)
  /\ length Types.Template_values = 8.
Proof.
  intros Hsub.
  destruct (submit_fields _ _ Hsub) as (Hn & Ha & Ht).
  destruct (form_invariant_foldl events _ form_invariant_initial) as (In & Ia & It).
  fold (DeckForm.after events) in In, Ia, It.
  rewrite <- Hn in In. rewrite <- Ha in Ia. rewrite <- Ht in It.
  unfold DeckForm.slider_min, DeckForm.slider_max in In.
  split.
  { split; [exact In|]. split.
    - apply offered_audiences_are_Audiences, Ia.
    - apply offered_templates_are_Templates, It. }
  split; [exact In|]. split.
  { intros Hno. rewrite Hn. unfold DeckForm.after.
    rewrite slideCount_untouched by exact Hno. reflexivity. }
  split; [exact Ia|]. split; [exact It|]. split.
  { intros Hbad. apply unoffered_templates_strict in Hbad as [_ Hbad].
    apply Hbad, It. }
  split; [exact offered_templates_are_Templates|].
  split; [exact unoffered_templates_strict|reflexivity].
Qed.

Lemma DeckForm_submits_valid_requests_witness :
  DeckForm.create_precondition
    {| DeckForm.req_prompt := "AI in Healthcare"; DeckForm.req_slideCount := 30;
       DeckForm.req_audience := "academic"; DeckForm.req_template := "minimal" |}.
Proof.
  apply (DeckForm_submits_valid_requests
           [DeckForm.MoveSlider 45; DeckForm.PickTemplate 3; DeckForm.PickTemplate 7;
            DeckForm.TypePrompt "AI in Healthcare"; DeckForm.PickAudience 2]).
  vm_compute. reflexivity.
Defined.

(** ** POST /api/decks *)

Lemma trimStart_empty (s : Js.JsString) :
  Js.trimStart s = [] <-> Forall (fun c => Js.is_white_space c = true) s.
Proof.
  induction s as [|c s IH]; simpl.
  - split; [constructor|reflexivity].
  - destruct (Js.is_white_space c) eqn:E.
    + rewrite IH. split.
      * intros H. constructor; assumption.
      * intros H. inversion H; assumption.
    + split; [discriminate|]. intros H. inversion H; congruence.
Qed.

Lemma trimStart_head (s : Js.JsString) (c : N) (r : Js.JsString) :
  Js.trimStart s = c :: r -> Js.is_white_space c = false.
Proof.
  induction s as [|d s IH]; simpl; [discriminate|].
  destruct (Js.is_white_space d) eqn:E; [exact IH|].
  intros [= <- _]. exact E.
Qed.

Lemma trimStart_snoc (s : Js.JsString) (c : N) :
  Js.is_white_space c = false -> Js.trimStart (s ++ [c]) <> [].
Proof.
  intros Hc. induction s as [|d s IH]; simpl.
  - rewrite Hc. discriminate.
  - destruct (Js.is_white_space d); [exact IH|discriminate].
Qed.

(** [trim] leaves nothing exactly of the strings made of white space. *)
Lemma trim_empty (s : Js.JsString) :
  Js.trim s = [] <-> Forall (fun c => Js.is_white_space c = true) s.
Proof.
  rewrite <- trimStart_empty. unfold Js.trim. split.
  - intros H. apply (f_equal (@length N)) in H. rewrite length_rev in H.
    destruct (Js.trimStart s) as [|c r] eqn:E; [reflexivity|]. exfalso.
    pose proof (trimStart_snoc (rev r) c (trimStart_head _ _ _ E)) as Hne.
    apply Hne. apply nil_length_inv. exact H.
  - intros ->. reflexivity.
Qed.

(** The two checks, on the values they are meant for. *)
Lemma prompt_refused_no_text (v : Js.Value) :
  Route.no_text v -> Route.prompt_refused v = Js.Normal true.
Proof.
  intros [->|[->|(p & -> & Hall)]]; [reflexivity|reflexivity|].
  unfold Route.prompt_refused.
  destruct p as [|c p]; [reflexivity|]. simpl Js.truthy at 1. simpl negb.
  apply trim_empty in Hall. rewrite Hall. reflexivity.
Qed.

Lemma prompt_refused_has_text (v : Js.Value) :
  Route.has_text v -> Route.prompt_refused v = Js.Normal false.
Proof.
  intros (p & c & -> & Hin & Hc). unfold Route.prompt_refused.
  destruct p as [|d p]; [inversion Hin|]. simpl Js.truthy at 1. simpl negb.
  destruct (Js.trim (d :: p)) as [|x t] eqn:E; [|reflexivity].
  exfalso. apply trim_empty in E. rewrite Forall_forall in E.
  specialize (E c Hin). congruence.
Qed.

Lemma text_or_not (p : Js.JsString) :
  (forallb Js.is_white_space p = true -> Route.no_text (Js.Str p))
  /\ (forallb Js.is_white_space p = false -> Route.has_text (Js.Str p)).
Proof.
  split.
  - intros H. right. right. exists p. split; [reflexivity|].
    apply Forall_forall. intros c Hc. rewrite forallb_forall in H.
    apply H, list_elem_of_In, Hc.
  - intros H. exists p.
    assert (Hex : existsb (fun c => negb (Js.is_white_space c)) p = true).
    { clear -H. induction p as [|c p IH]; [discriminate H|]. simpl in *.
      destruct (Js.is_white_space c); [exact (IH H)|reflexivity]. }
    apply existsb_exists in Hex as (c & Hc & Hw). exists c.
    split; [reflexivity|]. split; [apply list_elem_of_In, Hc|].
    apply negb_true_iff, Hw.
Qed.

Lemma slideCount_refused_in_range (v : Js.Value) :
  Route.count_in_range v -> Route.slideCount_refused v = Js.Normal false.
Proof.
  intros (q & -> & H5 & H30). unfold Route.slideCount_refused. simpl.
  assert (Hnz : Qeq_bool q 0 = false).
  { destruct (Qeq_bool q 0) eqn:E; [|reflexivity].
    apply Qeq_bool_iff in E. rewrite E in H5. exfalso. revert H5.
    unfold Qle. simpl. lia. }
  rewrite Hnz. simpl. unfold Js.gt. simpl.
  apply Qle_bool_iff in H5. apply Qle_bool_iff in H30. rewrite H5, H30. reflexivity.
Qed.

Lemma slideCount_refused_out_of_range (v : Js.Value) :
  Route.count_out_of_range v -> Route.slideCount_refused v = Js.Normal true.
Proof.
  intros [->|[->|[->|[(negative & ->)|(q & -> & Hout)]]]];
    try reflexivity; unfold Route.slideCount_refused; simpl.
  - destruct negative; reflexivity.
  - destruct (Qeq_bool q 0); [reflexivity|]. simpl. unfold Js.gt. simpl.
    destruct Hout as [Hlt|Hgt].
    + destruct (Qle_bool 5 q) eqn:E; [|reflexivity].
      apply Qle_bool_iff in E. exfalso. apply (Qlt_not_le _ _ Hlt E).
    + destruct (Qle_bool q 30) eqn:E; [|simpl; rewrite orb_true_r; reflexivity].
      apply Qle_bool_iff in E. exfalso. apply (Qlt_not_le _ _ Hgt E).
Qed.

Lemma kids_not_an_audience :
  ~ Route.one_of Types.Audience_values (Route.audience Route.request_for_kids).
Proof.
  intros (s & Hs & Heq). unfold Types.Audience_values in Hs.
  repeat (apply elem_of_cons in Hs as [->|Hs]; [discriminate Heq|]).
  inversion Hs.
Qed.




Lemma inject_Z_in_range (n : Z) :
  (5 <= n <= 30)%Z -> (5 <= inject_Z n)%Q /\ (inject_Z n <= 30)%Q.
Proof. intros [H5 H30]. unfold Qle. simpl. lia. Qed.

(** X4. Every request submitted through the form passes the slide-count
    check of the POST handler, whatever text its prompt holds: the
    handler forwards it to the service, once and unchanged, and answers
    with what the service answers, unless the prompt holds nothing but
    white space, in which case it answers 400 and forwards nothing. *)
Theorem form_requests_pass_slide_count_check
    (fetch_decks : Route.Body -> Route.FetchOutcome)
    (events : list DeckForm.Event) (r : DeckForm.DeckRequest) (p : Js.JsString) :
  DeckForm.submit (DeckForm.after events) = Some r ->
  Route.count_in_range (Route.slideCount (Route.body_with p r))
  /\ Route.POST fetch_decks (Some (Route.body_with p r))
     = if forallb Js.is_white_space p
       then ({| Route.http := 400;
                Route.payload := Route.ErrorPayload "Prompt is required" None |}, [])
       else (Route.relay (fetch_decks (Route.body_with p r)), [Route.body_with p r]).
Proof.
  intros Hsub.
  destruct (submit_fields _ _ Hsub) as (Hn & _ & _).
  destruct (form_invariant_foldl events _ form_invariant_initial) as (In & _ & _).
  fold (DeckForm.after events) in In. rewrite <- Hn in In.
  unfold DeckForm.slider_min, DeckForm.slider_max in In.
  assert (Hok : Route.count_in_range (Route.slideCount (Route.body_with p r))).
  { exists (inject_Z (DeckForm.req_slideCount r)).
    split; [reflexivity|]. apply inject_Z_in_range, In. }
  split; [exact Hok|]. unfold Route.POST.
  rewrite (slideCount_refused_in_range _ Hok).
  change (Route.prompt (Route.body_with p r)) with (Js.Str p).
  destruct (text_or_not p) as [Hblank Htext].
  destruct (forallb Js.is_white_space p).
  - rewrite (prompt_refused_no_text _ (Hblank eq_refl)). reflexivity.
  - rewrite (prompt_refused_has_text _ (Htext eq_refl)). reflexivity.
Qed.

Lemma form_requests_pass_slide_count_check_witness :
  Route.POST Route.sample_service
    (Some (Route.body_with [12288%N; 8195%N]
             {| DeckForm.req_prompt := "AI in Healthcare";
                DeckForm.req_slideCount := 30;
                DeckForm.req_audience := "academic";
                DeckForm.req_template := "minimal" |}))
  = ({| Route.http := 400;
        Route.payload := Route.ErrorPayload "Prompt is required" None |}, []).
Proof.
  destruct (form_requests_pass_slide_count_check Route.sample_service
              [DeckForm.MoveSlider 45; DeckForm.PickTemplate 3;
               DeckForm.TypePrompt "AI in Healthcare"; DeckForm.PickAudience 2]
              {| DeckForm.req_prompt := "AI in Healthcare"; DeckForm.req_slideCount := 30;
                 DeckForm.req_audience := "academic"; DeckForm.req_template := "minimal" |}
              [12288%N; 8195%N])
    as [_ H].
  - vm_compute. reflexivity.
  - exact H.
Defined.

(** X18. The fields of the body are not what their annotation says.
    A prompt that is truthy and no string (true, a number other than 0,
    an array, an object) has no [trim] to call: the request is answered
    500 and nothing is forwarded. With a prompt that has text, a slide
    count given as a non-empty text is checked as the number the text
    spells, and a text that spells no number compares false with both
    bounds: the request is forwarded, once and unchanged. *)
Theorem POST_coerces_untyped_fields
    (fetch_decks : Route.Body -> Route.FetchOutcome) (b : Route.Body) :
  let refused :=
    ({| Route.http := 400;
        Route.payload := Route.ErrorPayload "Slide count must be between 5 and 30" None |},
     @nil Route.Body) in
  let forwarded := (Route.relay (fetch_decks b), [b]) in
  (Js.truthy (Route.prompt b) = true ->
   (forall s, Route.prompt b <> Js.Str s) ->
   exists details,
     Route.POST fetch_decks (Some b)
     = ({| Route.http := 500;
           Route.payload := Route.ErrorPayload "Internal server error" (Some details) |},
        []))
  /\ (forall s,
        Route.has_text (Route.prompt b) ->
        Route.slideCount b = Js.Str s ->
        s <> [] ->
        match Js.string_to_number s with
        | Js.NaN => Route.POST fetch_decks (Some b) = forwarded
        | Js.Inf _ => Route.POST fetch_decks (Some b) = refused
        | Js.Fin q =>
            ((5 <= q)%Q /\ (q <= 30)%Q -> Route.POST fetch_decks (Some b) = forwarded)
            /\ ((q < 5)%Q \/ (30 < q)%Q -> Route.POST fetch_decks (Some b) = refused)
        end).
Proof.
  intros refused forwarded. subst refused forwarded. split.
  - intros Htruthy Hstr. unfold Route.POST, Route.prompt_refused.
    rewrite Htruthy. simpl.
    destruct (Route.prompt b) as [| | | |s| |];
      try (eexists; reflexivity).
    destruct (Hstr s eq_refl).
  - intros s Hp Hs Hne. unfold Route.POST.
    rewrite (prompt_refused_has_text _ Hp), Hs. unfold Route.slideCount_refused.
    destruct s as [|c s]; [destruct (Hne eq_refl)|].
    simpl Js.truthy. simpl negb. cbv iota. simpl Js.to_number.
    destruct (Js.string_to_number (c :: s)) as [|q|[]]; try reflexivity.
    unfold Js.gt. simpl. split.
    + intros [H5 H30]. apply Qle_bool_iff in H5. apply Qle_bool_iff in H30.
      rewrite H5, H30. reflexivity.
    + intros [Hlt|Hgt].
      * destruct (Qle_bool 5 q) eqn:E; [|reflexivity].
        apply Qle_bool_iff in E. exfalso. apply (Qlt_not_le _ _ Hlt E).
      * destruct (Qle_bool q 30) eqn:E; [|simpl; rewrite orb_true_r; reflexivity].
        apply Qle_bool_iff in E. exfalso. apply (Qlt_not_le _ _ Hgt E).
Qed.

Lemma POST_coerces_untyped_fields_witness :
  Route.POST Route.sample_service (Some Route.request_for_abc_slides)
  = (Route.relay (Route.sample_service Route.request_for_abc_slides),
     [Route.request_for_abc_slides])
  /\ Route.http
       (fst (Route.POST Route.sample_service
               (Some {| Route.prompt := Js.Arr [Js.Str (Js.str "AI in Healthcare")];
                        Route.slideCount := Js.Num (Js.Fin 10);
                        Route.audience := Js.Str (Js.str "business");
                        Route.template := Js.Str (Js.str "corporate") |}))) = 500.
Proof.
  split.
  - destruct (POST_coerces_untyped_fields Route.sample_service
                Route.request_for_abc_slides) as [_ H].
    assert (Hnan : Js.string_to_number (Js.str "abc") = Js.NaN)
      by (vm_compute; reflexivity).
    specialize (H (Js.str "abc")). rewrite Hnan in H. apply H.
    + exists (Js.str "AI in Healthcare"), 65%N.
      split; [reflexivity|]. split; [vm_compute; left|reflexivity].
    + reflexivity.
    + discriminate.
  - destruct (POST_coerces_untyped_fields Route.sample_service
                {| Route.prompt := Js.Arr [Js.Str (Js.str "AI in Healthcare")];
                   Route.slideCount := Js.Num (Js.Fin 10);
                   Route.audience := Js.Str (Js.str "business");
                   Route.template := Js.Str (Js.str "corporate") |}) as [H _].
    destruct H as [details H]; [reflexivity|discriminate|].
    rewrite H. reflexivity.
Defined.

(** ** FASTAPI_SPEC.md: create_deck *)


(** C6, as worded, fails: the job that [create_deck] returns is
    observable in state outline, not in a state received. *)
Lemma create_deck_state_is_not_received :
  exists entry,
    FastApiSpec.get_status "d1"
      (snd (FastApiSpec.create_deck "d1" FastApiSpec.sample_request FastApiSpec.empty_server))
    = FastApiSpec.Ok ("d1", entry)
    /\ FastApiSpec.status entry = "outline"
    /\ FastApiSpec.status entry <> "received".
Proof.
  eexists. split; [vm_compute; reflexivity|]. split; [reflexivity|discriminate].
Qed.

(** C6, amended. For every request [create_deck] answers at once: it
    stores the job, hands the generation to the background tasks
    without running it, and returns; the job is immediately observable
    in state outline with progress 0. *)
Theorem create_deck_returns_outline_at_once
    (deck_id : string) (request : FastApiSpec.DeckRequest) (sv : FastApiSpec.Server) :
  fst (FastApiSpec.create_deck deck_id request sv)
  = {| FastApiSpec.deckId := deck_id; FastApiSpec.resp_status := "outline" |}
  /\ FastApiSpec.get_status deck_id (snd (FastApiSpec.create_deck deck_id request sv))
     = FastApiSpec.Ok (deck_id,
         {| FastApiSpec.status := "outline"; FastApiSpec.progress := 0;
            FastApiSpec.file_path := None; FastApiSpec.error := None |})
  /\ FastApiSpec.background_tasks (snd (FastApiSpec.create_deck deck_id request sv))
     = FastApiSpec.background_tasks sv ++ [(deck_id, request)]
  /\ (forall other, other <> deck_id ->
        FastApiSpec.get_status other (snd (FastApiSpec.create_deck deck_id request sv))
        = FastApiSpec.get_status other sv).
Proof.
  split; [reflexivity|]. split.
  - unfold FastApiSpec.get_status. simpl. rewrite lookup_insert_eq. reflexivity.
  - split; [reflexivity|]. intros other Hne.
    unfold FastApiSpec.get_status. simpl. rewrite lookup_insert_ne by congruence.
    reflexivity.
Qed.

(** ** Weighted slide allocation *)

Example allocate_sample :
  Allocation.allocate Allocation.sample_outline 10 = [1; 5; 3; 1]
  /\ Allocation.allocate Allocation.sample_outline 4 = [1; 1; 1; 1]
  /\ Allocation.allocate Allocation.sample_outline 30 = [4; 12; 10; 4].
Proof. repeat split; vm_compute; reflexivity. Qed.

Section AllocationFacts.

Import Allocation.

Lemma sum_list_cons (x : nat) (l : list nat) : sum_list (x :: l) = x + sum_list l.
Proof. reflexivity. Qed.

Lemma floors_below_total (spare W : nat) (ws : list nat) :
  W * sum_list ((fun w => spare * w / W) <$> ws) <= spare * sum_list ws.
Proof.
  induction ws as [|w ws IH]; [simpl; lia|].
  rewrite fmap_cons, !sum_list_cons.
  pose proof (Nat.Div0.mul_div_le (spare * w) W). lia.
Qed.

Lemma sum_list_shares (spare W : nat) (ws : list nat) :
  sum_list ((fun w => 1 + spare * w / W) <$> ws)
  = length ws + sum_list ((fun w => spare * w / W) <$> ws).
Proof.
  induction ws as [|w ws IH]; [reflexivity|].
  rewrite !fmap_cons, !sum_list_cons, IH. simpl. lia.
Qed.

Lemma proportional_below (ws : list nat) (slideCount : nat) :
  length ws <= slideCount -> sum_list (proportional ws slideCount) <= slideCount.
Proof.
  intros Hn. unfold proportional. rewrite sum_list_shares.
  pose proof (floors_below_total (slideCount - length ws) (sum_list ws) ws) as H.
  destruct (decide (sum_list ws = 0)) as [H0|H0].
  - assert (sum_list ((fun w => (slideCount - length ws) * w / sum_list ws) <$> ws) = 0)
      as ->; [|lia].
    rewrite H0. generalize (slideCount - length ws). clear. intros spare.
    induction ws as [|w ws IH]; [reflexivity|].
    rewrite fmap_cons, sum_list_cons, IH. reflexivity.
  - assert (sum_list ((fun w => (slideCount - length ws) * w / sum_list ws) <$> ws)
            <= slideCount - length ws); [|lia].
    rewrite (Nat.mul_comm (slideCount - length ws)) in H.
    apply Nat.mul_le_mono_pos_l in H; [exact H|lia].
Qed.

Lemma proportional_at_least_one (ws : list nat) (slideCount : nat) :
  Forall (le 1) (proportional ws slideCount).
Proof. unfold proportional. apply Forall_fmap, Forall_forall. intros; simpl; lia. Qed.

Lemma highest_lt (ws : list nat) : ws <> [] -> highest ws < length ws.
Proof.
  induction ws as [|w ws IH]; [congruence|]. intros _. simpl.
  destruct (forallb _ ws) eqn:E; [lia|].
  destruct ws as [|w' ws]; [discriminate E|].
  specialize (IH ltac:(discriminate)). simpl in *. lia.
Qed.

Lemma highest_is_max (ws : list nat) :
  ws <> [] ->
  exists w, ws !! highest ws = Some w /\ Forall (fun x => x <= w) ws.
Proof.
  induction ws as [|w ws IH]; [congruence|]. intros _. simpl.
  destruct (forallb (fun x => x <=? w) ws) eqn:E.
  - exists w. split; [reflexivity|]. constructor; [lia|].
    apply Forall_forall. intros x Hx. rewrite forallb_forall in E.
    apply Nat.leb_le, E, list_elem_of_In, Hx.
  - destruct ws as [|w' ws]; [discriminate E|].
    destruct (IH ltac:(discriminate)) as (m & Hm & Hall).
    exists m. split; [exact Hm|]. constructor; [|exact Hall].
    destruct (decide (w <= m)) as [|Hgt]; [assumption|]. exfalso.
    assert (forallb (fun x => x <=? w) (w' :: ws) = true); [|congruence].
    apply forallb_forall. intros x Hx. apply Nat.leb_le.
    rewrite Forall_forall in Hall. apply list_elem_of_In, Hall in Hx. lia.
Qed.

Lemma sum_list_alter_add (r i : nat) (l : list nat) :
  i < length l -> sum_list (alter (Nat.add r) i l) = r + sum_list l.
Proof.
  revert i. induction l as [|x l IH]; intros i Hi; simpl in Hi; [lia|].
  destruct i as [|i].
  - change (alter (Nat.add r) 0 (x :: l)) with ((r + x) :: l).
    rewrite !sum_list_cons. lia.
  - change (alter (Nat.add r) (S i) (x :: l)) with (x :: alter (Nat.add r) i l).
    rewrite !sum_list_cons, IH by lia. lia.
Qed.

Lemma Forall_alter_add (r i : nat) (l : list nat) :
  Forall (le 1) l -> Forall (le 1) (alter (Nat.add r) i l).
Proof.
  revert i. induction l as [|x l IH]; intros i Hl; [constructor|].
  apply Forall_cons in Hl as [Hx Hl].
  destruct i as [|i].
  - change (alter (Nat.add r) 0 (x :: l)) with ((r + x) :: l).
    constructor; [lia|exact Hl].
  - change (alter (Nat.add r) (S i) (x :: l)) with (x :: alter (Nat.add r) i l).
    constructor; [exact Hx|apply IH, Hl].
Qed.

End AllocationFacts.

(** The section of highest weight is the first one that no other
    section outweighs. *)
Lemma highest_first (ws : list nat) (j w : nat) :
  j < Allocation.highest ws -> ws !! j = Some w ->
  exists top, ws !! Allocation.highest ws = Some top /\ w < top.
Proof.
  revert j. induction ws as [|x ws IH]; intros j Hj Hw; [discriminate Hw|].
  simpl in Hj |- *. destruct (forallb (fun y => y <=? x) ws) eqn:E; [lia|].
  assert (Hws : ws <> []) by (intros ->; discriminate E).
  destruct (highest_is_max ws Hws) as (top & Htop & Hall).
  exists top. split; [exact Htop|].
  destruct j as [|j].
  - injection Hw as <-. destruct (decide (x < top)) as [|Hge]; [assumption|].
    exfalso. assert (forallb (fun y => y <=? x) ws = true); [|congruence].
    apply forallb_forall. intros y Hy. apply Nat.leb_le.
    rewrite Forall_forall in Hall. apply list_elem_of_In, Hall in Hy. lia.
  - destruct (IH j ltac:(lia) Hw) as (top' & Htop' & Hlt).
    rewrite Htop in Htop'. injection Htop' as <-. exact Hlt.
Qed.

(** C5. For every outline with N >= 1 sections carrying weights and
    every requested slide count S >= N, the weighted allocation gives
    each section at least one slide, and the allocations sum to exactly
    S. Section by section: every section gets one slide and the part of
    the S - N spare slides that its own weight earns it, rounded down;
    the slides that the rounding leaves over all go to one section,
    whose weight no other section exceeds (the first such section). *)
Theorem allocation_conserves_slide_count
    (outline : list Allocation.SectionDescriptor) (slideCount : nat) :
  outline <> [] ->
  length outline <= slideCount ->
  let total := foldr (fun s acc => Allocation.weight s + acc) 0 outline in
  let share := fun s : Allocation.SectionDescriptor =>
                 1 + (slideCount - length outline) * Allocation.weight s / total in
  let remainder := slideCount - foldr (fun s acc => share s + acc) 0 outline in
  length (Allocation.allocate outline slideCount) = length outline
  /\ sum_list (Allocation.allocate outline slideCount) = slideCount
  /\ Forall (le 1) (Allocation.allocate outline slideCount)
  /\ exists (h : nat) (top : Allocation.SectionDescriptor),
       outline !! h = Some top
       /\ Forall (fun s => Allocation.weight s <= Allocation.weight top) outline
       /\ (forall j s, j < h -> outline !! j = Some s ->
              Allocation.weight s < Allocation.weight top)
       /\ forall i s, outline !! i = Some s ->
            Allocation.allocate outline slideCount !! i
            = Some (share s + if decide (i = h) then remainder else 0).
Proof.
  intros Hne Hn total share remainder. unfold Allocation.allocate. cbv zeta.
  set (ws := Allocation.weights outline).
  assert (Hlen : length ws = length outline) by apply length_fmap.
  assert (Hws : ws <> []) by (destruct outline; [congruence|discriminate]).
  assert (Hshares : length (Allocation.proportional ws slideCount) = length ws)
    by apply length_fmap.
  pose proof (proportional_below ws slideCount ltac:(lia)) as Hbelow.
  pose proof (highest_lt ws Hws) as Hlt.
  split; [rewrite length_alter; lia|]. split.
  { rewrite sum_list_alter_add by lia. lia. }
  split; [apply Forall_alter_add, proportional_at_least_one|].
  destruct (highest_is_max ws Hws) as (w & Hw & Hall).
  assert (Htotal : sum_list ws = total).
  { subst ws total. unfold Allocation.weights. clear.
    induction outline as [|s outline IH]; [reflexivity|].
    rewrite fmap_cons, sum_list_cons, IH. reflexivity. }
  assert (Hshare : Allocation.proportional ws slideCount = share <$> outline).
  { unfold Allocation.proportional. rewrite Htotal, Hlen. subst ws.
    unfold Allocation.weights. rewrite <- list_fmap_compose. reflexivity. }
  assert (Hsum : forall f : Allocation.SectionDescriptor -> nat,
             sum_list (f <$> outline) = foldr (fun s acc => f s + acc) 0 outline).
  { intros f. clear. induction outline as [|s outline IH]; [reflexivity|].
    rewrite fmap_cons, sum_list_cons, IH. reflexivity. }
  assert (Hw' : Allocation.weight <$> outline !! Allocation.highest ws = Some w)
    by (rewrite <- list_lookup_fmap; exact Hw).
  clear Hw. rename Hw' into Hw.
  destruct (outline !! Allocation.highest ws) as [top|] eqn:Htop;
    simpl in Hw; [|discriminate Hw].
  injection Hw as <-.
  exists (Allocation.highest ws), top. split; [exact Htop|]. split.
  { unfold ws, Allocation.weights in Hall. apply Forall_fmap in Hall. exact Hall. }
  split.
  { intros j s Hj Hs.
    destruct (highest_first ws j (Allocation.weight s) Hj) as (t & Ht & Hlt').
    - unfold ws, Allocation.weights. rewrite list_lookup_fmap, Hs. reflexivity.
    - assert (Ht' : Allocation.weight <$> outline !! Allocation.highest ws = Some t)
        by (rewrite <- list_lookup_fmap; exact Ht).
      rewrite Htop in Ht'. injection Ht' as <-. exact Hlt'. }
  intros i s Hs. rewrite Hshare, Hsum. unfold remainder.
  destruct (decide (i = Allocation.highest ws)) as [->|Hne'].
  - rewrite list_lookup_alter_eq, list_lookup_fmap, Hs.
    exact (f_equal Some (Nat.add_comm _ _)).
  - rewrite list_lookup_alter_ne by congruence.
    rewrite list_lookup_fmap, Hs.
    exact (f_equal Some (eq_sym (Nat.add_0_r _))).
Qed.

Lemma allocation_conserves_slide_count_witness :
  sum_list (Allocation.allocate Allocation.sample_outline 10) = 10
  /\ Allocation.allocate Allocation.sample_outline 10 = [1; 5; 3; 1].
Proof.
  split; [|vm_compute; reflexivity].
  apply (allocation_conserves_slide_count Allocation.sample_outline 10).
  - discriminate.
  - vm_compute. lia.
Defined.

(** ** The content-fit engine *)

Example engine_on_sample_deck :
  (fun s => (ContentFitEngine.bodyKind (ContentFitEngine.body s),
             ContentFitEngine.body_texts (ContentFitEngine.body s),
             ContentFitEngine.background s))
    <$> ContentFitEngine.sample_engine ContentFitEngine.sample_deck
  = [ (ContentFitEngine.bullet_list, [ContentFitEngine.txt "AI in Healthcare"],
       Some (ContentFitEngine.txt "cover.png"));
      (ContentFitEngine.chart,
       [ContentFitEngine.txt
          "Revenue grew by 45 percent over the previous fiscal year while operating..."],
       None);
      (ContentFitEngine.timeline,
       [ContentFitEngine.txt "Pilot"; ContentFitEngine.txt "Rollout";
        ContentFitEngine.txt "Scale"], None);
      (ContentFitEngine.narrative, [ContentFitEngine.txt "Overview"], None);
      (ContentFitEngine.comparison,
       [ContentFitEngine.txt "Build"; ContentFitEngine.txt "Options"], None) ].
Proof. vm_compute. reflexivity. Qed.

Section TextFacts.

Import ContentFitEngine.

Lemma cut_at_word_length (t : Text) : length (cut_at_word t) <= length t - 1.
Proof.
  induction t as [|c t IH]; simpl; [lia|].
  destruct (existsb Ascii.is_space t) eqn:E; simpl; [|lia].
  destruct t as [|c' t]; [discriminate E|]. simpl in *. lia.
Qed.

Lemma ellipsis_not_blank (p : Text) : blank (p ++ ellipsis) = false.
Proof.
  unfold blank. rewrite forallb_app. apply andb_false_iff. right. reflexivity.
Qed.

Lemma truncate_length (ceiling : nat) (t : Text) :
  3 <= ceiling -> length (truncate ceiling t) <= ceiling.
Proof.
  intros Hc. unfold truncate. rewrite length_app.
  pose proof (cut_at_word_length (take (ceiling - 2) t)) as Hcut.
  rewrite length_take in Hcut. change (length ellipsis) with 3. lia.
Qed.

(** The cut is at the last white space of the text: what is kept is
    followed by white space, after which no white space comes; nothing
    is kept only of a text that holds no white space, or none but its
    first character. *)
Lemma cut_at_word_last (w : Text) :
  (cut_at_word w = [] /\ Forall (fun c => Ascii.is_space c = false) w)
  \/ exists c q, w = cut_at_word w ++ c :: q
                 /\ Ascii.is_space c = true
                 /\ Forall (fun c => Ascii.is_space c = false) q.
Proof.
  induction w as [|c w IH]; [left; split; [reflexivity|constructor]|]. simpl.
  destruct (existsb Ascii.is_space w) eqn:E.
  - right. destruct IH as [[_ Hall] | (c' & q & Hw & Hc' & Hq)].
    + exfalso. apply existsb_exists in E as (x & Hx & Hsp).
      rewrite Forall_forall in Hall. apply list_elem_of_In, Hall in Hx. congruence.
    + exists c', q. split; [|split; assumption]. simpl. rewrite <- Hw. reflexivity.
  - assert (Hall : Forall (fun c => Ascii.is_space c = false) w).
    { apply Forall_forall. intros x Hx.
      destruct (Ascii.is_space x) eqn:Hsp; [|reflexivity].
      assert (existsb Ascii.is_space w = true); [|congruence].
      apply existsb_exists. exists x. split; [apply list_elem_of_In, Hx|exact Hsp]. }
    destruct (Ascii.is_space c) eqn:Hc.
    + right. exists c, w. split; [reflexivity|]. split; assumption.
    + left. split; [reflexivity|]. constructor; assumption.
Qed.

(** Truncation keeps the longest part of the text that ends at a word
    boundary and leaves room for the marker. *)
Lemma truncate_at_last_boundary (ceiling : nat) (t : Text) :
  ceiling - 2 <= length t ->
  exists p rest,
    t = p ++ rest
    /\ truncate ceiling t = p ++ ellipsis
    /\ ((p = [] /\ Forall (fun c => Ascii.is_space c = false) (take (ceiling - 2) t))
        \/ exists c rest',
             rest = c :: rest'
             /\ Ascii.is_space c = true
             /\ length p < ceiling - 2
             /\ Forall (fun c => Ascii.is_space c = false)
                  (take (ceiling - 3 - length p) rest')).
Proof.
  intros Hlen. exists (cut_at_word (take (ceiling - 2) t)).
  destruct (cut_at_word_last (take (ceiling - 2) t))
    as [[Hnil Hall] | (c & q & Hw & Hc & Hq)].
  - exists t. unfold truncate. rewrite Hnil. split; [reflexivity|].
    split; [reflexivity|]. left. split; [reflexivity|exact Hall].
  - exists (c :: q ++ drop (ceiling - 2) t).
    set (p := cut_at_word (take (ceiling - 2) t)) in *.
    assert (Hsize : length p + S (length q) = ceiling - 2).
    { apply (f_equal length) in Hw. rewrite length_take, length_app in Hw.
      simpl in Hw. lia. }
    split.
    { rewrite <- (take_drop (ceiling - 2) t) at 1. rewrite Hw at 1.
      rewrite <- app_assoc. reflexivity. }
    split; [reflexivity|]. right. exists c, (q ++ drop (ceiling - 2) t).
    split; [reflexivity|]. split; [exact Hc|]. split; [lia|].
    replace (ceiling - 3 - length p) with (length q) by lia.
    rewrite take_app_length. exact Hq.
Qed.

Variable compress : Text -> nat -> option Text.

Lemma fit_text_length (ceiling : nat) (t : Text) :
  3 <= ceiling -> length (fit_text compress ceiling t) <= ceiling.
Proof.
  intros Hc. unfold fit_text.
  destruct (length t <=? ceiling) eqn:E; [apply Nat.leb_le, E|].
  destruct (compress t ceiling) as [t'|]; [|apply truncate_length, Hc].
  destruct (length t' <=? ceiling) eqn:E'; simpl.
  - destruct (blank t'); simpl; [apply truncate_length, Hc|apply Nat.leb_le, E'].
  - apply truncate_length, Hc.
Qed.

Lemma fit_text_fits (ceiling : nat) (t : Text) :
  length t <= ceiling -> fit_text compress ceiling t = t.
Proof. intros H. unfold fit_text. apply Nat.leb_le in H. rewrite H. reflexivity. Qed.

Lemma fit_text_not_blank (ceiling : nat) (t : Text) :
  blank t = false -> blank (fit_text compress ceiling t) = false.
Proof.
  intros Ht. unfold fit_text.
  destruct (length t <=? ceiling); [exact Ht|].
  destruct (compress t ceiling) as [t'|]; [|apply ellipsis_not_blank].
  destruct (length t' <=? ceiling); simpl; [|apply ellipsis_not_blank].
  destruct (blank t') eqn:E; simpl; [apply ellipsis_not_blank|exact E].
Qed.

(** With the delegate unavailable, a text beyond its ceiling is
    truncated. *)
Lemma fit_text_unavailable (ceiling : nat) (t : Text) :
  ceiling < length t -> compress t ceiling = None ->
  fit_text compress ceiling t = truncate ceiling t.
Proof.
  intros Hlong Hnone. unfold fit_text.
  destruct (length t <=? ceiling) eqn:E; [apply Nat.leb_le in E; lia|].
  rewrite Hnone. reflexivity.
Qed.

Lemma fallback_text_not_blank (t : Text) : blank (fallback_text t) = false.
Proof. unfold fallback_text. destruct (blank t) eqn:E; [reflexivity|exact E]. Qed.

End TextFacts.

Section EngineFacts.

Import ContentFitEngine.

Variable compress : Text -> nat -> option Text.
Variables max_rows max_cols max_events : positive.
Variables large_upto medium_upto : nat.

Local Abbreviation fit_bullets := (ContentFitEngine.fit_bullets compress).
Local Abbreviation fit_bullet := (ContentFitEngine.fit_bullet compress).
Local Abbreviation fit_paragraph := (ContentFitEngine.fit_paragraph compress).
Local Abbreviation fit_body := (ContentFitEngine.fit_body compress).
Local Abbreviation bound_body := (ContentFitEngine.bound_body max_rows max_cols max_events).
Local Abbreviation within_bounds := (ContentFitEngine.within_bounds max_rows max_cols max_events).
Local Abbreviation bucket := (ContentFitEngine.bucket large_upto medium_upto).
Local Abbreviation fit_slide :=
  (ContentFitEngine.fit_slide compress max_rows max_cols max_events large_upto medium_upto).
Local Abbreviation slide_valid :=
  (ContentFitEngine.slide_valid max_rows max_cols max_events large_upto medium_upto).
Local Abbreviation deck_valid :=
  (ContentFitEngine.deck_valid max_rows max_cols max_events large_upto medium_upto).
Local Abbreviation chart_guarantee :=
  (ContentFitEngine.chart_guarantee compress max_rows max_cols max_events
     large_upto medium_upto).
Local Abbreviation engine :=
  (ContentFitEngine.engine compress max_rows max_cols max_events large_upto medium_upto).

(** *** Lists of bullets *)

Lemma repair_items_not_blank (fb : Text) (items : list Text) :
  blank fb = false -> all_blank (repair_items fb items) = false.
Proof.
  intros Hfb. unfold repair_items. destruct (all_blank items) eqn:E; [|exact E].
  simpl. rewrite Hfb. reflexivity.
Qed.

Lemma repair_items_id (fb : Text) (items : list Text) :
  all_blank items = false -> repair_items fb items = items.
Proof. intros H. unfold repair_items. rewrite H. reflexivity. Qed.

Lemma fit_bullets_not_blank (items : list Text) :
  all_blank items = false -> all_blank (fit_bullets items) = false.
Proof.
  unfold all_blank, ContentFitEngine.fit_bullets.
  induction items as [|t items IH]; [discriminate|].
  rewrite fmap_cons. simpl. intros H. apply andb_false_iff in H as [H|H].
  - unfold ContentFitEngine.fit_bullet. rewrite fit_text_not_blank by exact H. reflexivity.
  - rewrite IH by exact H. apply andb_false_r.
Qed.

Lemma fit_bullets_within (items : list Text) :
  Forall (fun t => length t <= Readme.MAX_BULLET_CHARS) (fit_bullets items).
Proof.
  unfold ContentFitEngine.fit_bullets. apply Forall_fmap, Forall_forall.
  intros t _. simpl. apply fit_text_length. unfold Readme.MAX_BULLET_CHARS. lia.
Qed.

Lemma fit_bullets_id (items : list Text) :
  Forall (fun t => length t <= Readme.MAX_BULLET_CHARS) items ->
  fit_bullets items = items.
Proof.
  unfold ContentFitEngine.fit_bullets. induction 1 as [|t items Ht _ IH]; [reflexivity|].
  rewrite fmap_cons, IH. unfold ContentFitEngine.fit_bullet.
  rewrite fit_text_fits by exact Ht. reflexivity.
Qed.

Lemma fit_paragraph_within (t : Text) :
  length (fit_paragraph t) <= Readme.MAX_PARAGRAPH_CHARS.
Proof. apply fit_text_length. unfold Readme.MAX_PARAGRAPH_CHARS. lia. Qed.

(** *** Sides of a comparison *)

Lemma pad_sides_two (sides : list (list Text)) :
  length (pad_sides (take 2 sides)) = 2.
Proof.
  unfold pad_sides. rewrite length_app, length_replicate, length_take. lia.
Qed.

Lemma pad_sides_id (sides : list (list Text)) :
  length sides = 2 -> pad_sides sides = sides.
Proof. intros H. unfold pad_sides. rewrite H. simpl. apply app_nil_r. Qed.

Lemma sides_repaired (fb : Text) (sides : list (list Text)) :
  blank fb = false ->
  existsb all_blank
    (fmap (M:=list) fit_bullets (fmap (M:=list) (repair_items fb) sides)) = false.
Proof.
  intros Hfb. induction sides as [|x sides IH]; [reflexivity|].
  rewrite !fmap_cons. simpl.
  rewrite fit_bullets_not_blank by (apply repair_items_not_blank, Hfb).
  exact IH.
Qed.

Lemma sides_unrepaired (fb : Text) (sides : list (list Text)) :
  existsb all_blank sides = false -> fmap (M:=list) (repair_items fb) sides = sides.
Proof.
  induction sides as [|x sides IH]; [reflexivity|].
  intros H. simpl in H. apply orb_false_iff in H as [Hx H].
  rewrite fmap_cons, IH by exact H. rewrite repair_items_id by exact Hx. reflexivity.
Qed.

Lemma sides_within (sides : list (list Text)) :
  Forall (fun t => length t <= Readme.MAX_BULLET_CHARS)
    (concat (fmap (M:=list) fit_bullets sides)).
Proof.
  induction sides as [|x sides IH]; [constructor|].
  rewrite fmap_cons. simpl. apply Forall_app. split; [apply fit_bullets_within|exact IH].
Qed.

Lemma sides_fit_id (sides : list (list Text)) :
  Forall (fun t => length t <= Readme.MAX_BULLET_CHARS) (concat sides) ->
  fmap (M:=list) fit_bullets sides = sides.
Proof.
  induction sides as [|x sides IH]; [reflexivity|].
  intros H. simpl in H. apply Forall_app in H as [Hx H].
  rewrite fmap_cons, IH by exact H. rewrite fit_bullets_id by exact Hx. reflexivity.
Qed.

(** *** Payloads *)

Lemma repaired_body_not_empty (fb : Text) (b : Body) :
  blank fb = false -> body_empty (fit_body (repair_body fb (bound_body b))) = false.
Proof.
  intros Hfb. destruct b as [bs|l r|sides|q|ev|p|img bs|rows|series]; simpl.
  - apply fit_bullets_not_blank, repair_items_not_blank, Hfb.
  - rewrite !fit_bullets_not_blank by (apply repair_items_not_blank, Hfb). reflexivity.
  - rewrite !length_fmap, pad_sides_two. simpl. apply sides_repaired, Hfb.
  - apply fit_text_not_blank. unfold repair_text.
    destruct (blank q) eqn:E; [exact Hfb|exact E].
  - apply repair_items_not_blank, Hfb.
  - apply fit_text_not_blank. unfold repair_text.
    destruct (blank p) eqn:E; [exact Hfb|exact E].
  - apply fit_bullets_not_blank, repair_items_not_blank, Hfb.
  - destruct (forallb all_blank (take _ _)) eqn:E; [|exact E].
    simpl. rewrite Hfb. reflexivity.
  - destruct series; reflexivity.
Qed.

Lemma repaired_body_within_bounds (fb : Text) (b : Body) :
  within_bounds (fit_body (repair_body fb (bound_body b))).
Proof.
  destruct b as [bs|l r|sides|q|ev|p|img bs|rows|series]; simpl; try exact I.
  - unfold repair_items. destruct (all_blank _).
    + simpl. pose proof (Pos2Nat.is_pos max_events). lia.
    + rewrite length_take. lia.
  - destruct (forallb all_blank (take _ _)).
    + pose proof (Pos2Nat.is_pos max_rows). pose proof (Pos2Nat.is_pos max_cols).
      split; [simpl; lia|]. repeat constructor. simpl. lia.
    + split; [rewrite length_take; lia|].
      apply Forall_take, Forall_fmap, Forall_forall. intros r _. simpl.
      rewrite length_take. lia.
Qed.

Lemma repaired_body_within_ceilings (fb : Text) (b : Body) :
  within_ceilings (fit_body (repair_body fb (bound_body b))).
Proof.
  unfold within_ceilings.
  destruct b as [bs|l r|sides|q|ev|p|img bs|rows|series]; simpl;
    split; try constructor; try apply fit_bullets_within;
    try apply fit_paragraph_within; try constructor.
  - apply Forall_app. split; apply fit_bullets_within.
  - apply sides_within.
Qed.

Lemma bound_body_id (b : Body) :
  within_bounds b -> body_empty b = false -> bound_body b = b.
Proof.
  destruct b as [bs|l r|sides|q|ev|p|img bs|rows|series]; simpl; intros Hb He;
    try reflexivity.
  - apply orb_false_iff in He as [Hlen _]. apply negb_false_iff, Nat.eqb_eq in Hlen.
    rewrite take_ge by lia. reflexivity.
  - rewrite take_ge by lia. reflexivity.
  - destruct Hb as [Hrows Hcols]. f_equal.
    assert (fmap (M:=list) (take (Pos.to_nat max_cols)) rows = rows) as ->.
    { clear Hrows He. induction Hcols as [|r rows Hr _ IH]; [reflexivity|].
      rewrite fmap_cons, IH, take_ge by lia. reflexivity. }
    apply take_ge. lia.
Qed.

Lemma repair_body_id (fb : Text) (b : Body) :
  body_empty b = false -> repair_body fb b = b.
Proof.
  destruct b as [bs|l r|sides|q|ev|p|img bs|rows|series]; simpl; intros He.
  - rewrite repair_items_id by exact He. reflexivity.
  - apply orb_false_iff in He as [Hl Hr].
    rewrite !repair_items_id by assumption. reflexivity.
  - apply orb_false_iff in He as [Hlen Hs]. apply negb_false_iff, Nat.eqb_eq in Hlen.
    rewrite pad_sides_id by exact Hlen. rewrite sides_unrepaired by exact Hs. reflexivity.
  - unfold repair_text. rewrite He. reflexivity.
  - rewrite repair_items_id by exact He. reflexivity.
  - unfold repair_text. rewrite He. reflexivity.
  - rewrite repair_items_id by exact He. reflexivity.
  - rewrite He. reflexivity.
  - destruct series; [discriminate He|reflexivity].
Qed.

Lemma fit_body_id (b : Body) : within_ceilings b -> fit_body b = b.
Proof.
  unfold within_ceilings.
  destruct b as [bs|l r|sides|q|ev|p|img bs|rows|series]; simpl; intros [Hb Hp];
    try reflexivity.
  - rewrite fit_bullets_id by exact Hb. reflexivity.
  - apply Forall_app in Hb as [Hl Hr]. rewrite !fit_bullets_id by assumption. reflexivity.
  - rewrite sides_fit_id by exact Hb. reflexivity.
  - apply Forall_cons in Hp as [Hq _]. unfold ContentFitEngine.fit_paragraph.
    rewrite fit_text_fits by exact Hq. reflexivity.
  - apply Forall_cons in Hp as [Hq _]. unfold ContentFitEngine.fit_paragraph.
    rewrite fit_text_fits by exact Hq. reflexivity.
  - rewrite fit_bullets_id by exact Hb. reflexivity.
Qed.

(** *** Slides *)

Lemma fit_slide_valid (i : nat) (s : SlideSpec) : slide_valid i (fit_slide i s).
Proof.
  unfold ContentFitEngine.slide_valid, ContentFitEngine.fit_slide. simpl.
  split; [apply repaired_body_within_bounds|].
  split; [apply repaired_body_not_empty, fallback_text_not_blank|].
  split; [apply repaired_body_within_ceilings|].
  split; [|reflexivity].
  intros Hi. destruct i; [congruence|reflexivity].
Qed.

Lemma fit_slide_id (i : nat) (s : SlideSpec) : slide_valid i s -> fit_slide i s = s.
Proof.
  intros (Hb & He & Hc & Hbg & Hf). unfold ContentFitEngine.fit_slide.
  rewrite bound_body_id by assumption. rewrite repair_body_id by exact He.
  rewrite fit_body_id by exact Hc. rewrite <- Hf.
  destruct s as [t b bg f]. simpl in *. f_equal.
  destruct i; [reflexivity|]. symmetry. apply Hbg. discriminate.
Qed.

(** *** Decks *)

Lemma imap_fit_valid (d : Deck) (i : nat) (s : SlideSpec) :
  imap fit_slide d !! i = Some s -> slide_valid i s.
Proof.
  rewrite list_lookup_imap. destruct (d !! i) as [s0|]; simpl; [|discriminate].
  intros [= <-]. apply fit_slide_valid.
Qed.

Lemma most_quantitative_lt (scores : list nat) (i : nat) :
  most_quantitative scores = Some i -> i < length scores.
Proof.
  revert i. induction scores as [|n scores IH]; intros i; [discriminate|]. simpl.
  destruct ((0 <? n) && forallb (fun m => m <=? n) scores).
  - intros [= <-]. lia.
  - destruct (most_quantitative scores) as [j|]; simpl; [|discriminate].
    intros [= <-]. specialize (IH j eq_refl). lia.
Qed.

Lemma slide_to_convert_range (d : Deck) (i : nat) :
  slide_to_convert d = Some i -> 1 <= i < length d.
Proof.
  destruct d as [|s0 [|s1 d]]; [discriminate..|].
  unfold slide_to_convert.
  assert (Hcontent : length (s1 :: d) <> 0) by discriminate.
  generalize dependent (s1 :: d). intros content Hcontent Hi.
  injection Hi as <-.
  assert (default (length content - 1)
            (most_quantitative (fmap (M:=list) quantitative content))
          < length content); [|simpl; lia].
  destruct (most_quantitative _) as [j|] eqn:E; simpl; [|lia].
  apply most_quantitative_lt in E. rewrite length_fmap in E. exact E.
Qed.

Lemma slide_to_convert_none (d : Deck) :
  slide_to_convert d = None -> length d < 2.
Proof. destruct d as [|s0 [|s1 d]]; [simpl; lia..|discriminate]. Qed.

Lemma has_chart_alter (f : SlideSpec -> SlideSpec) (d : Deck) (i : nat) :
  i < length d -> (forall s, is_chart (f s) = true) ->
  has_chart (alter f i d) = true.
Proof.
  intros Hi Hf. unfold has_chart. revert i Hi.
  induction d as [|s d IH]; intros i Hi; simpl in Hi; [lia|].
  destruct i as [|i].
  - change (alter f 0 (s :: d)) with (f s :: d). simpl. rewrite Hf. reflexivity.
  - change (alter f (S i) (s :: d)) with (s :: alter f i d). simpl.
    rewrite IH by lia. apply orb_true_r.
Qed.

Lemma converted_is_chart (i : nat) (s : SlideSpec) :
  is_chart (fit_slide i (to_chart s)) = true.
Proof.
  unfold is_chart, ContentFitEngine.fit_slide, to_chart. simpl. reflexivity.
Qed.

Lemma chart_guarantee_valid (d : Deck) :
  (forall i s, d !! i = Some s -> slide_valid i s) ->
  deck_valid (chart_guarantee d).
Proof.
  intros Hd. unfold ContentFitEngine.chart_guarantee.
  destruct (has_chart d) eqn:Hc.
  { split; [exact Hd|left; exact Hc]. }
  destruct (slide_to_convert d) as [k|] eqn:Hk.
  - apply slide_to_convert_range in Hk. split.
    + intros i s. destruct (decide (k = i)) as [<-|Hne].
      * rewrite list_lookup_alter_eq. destruct (d !! k) as [s0|]; simpl; [|discriminate].
        intros [= <-]. apply fit_slide_valid.
      * rewrite list_lookup_alter_ne by exact Hne. apply Hd.
    + left. apply has_chart_alter; [lia|]. intros s. apply converted_is_chart.
  - split; [exact Hd|]. right. apply slide_to_convert_none, Hk.
Qed.

Lemma engine_valid (d : Deck) : deck_valid (engine d).
Proof. apply chart_guarantee_valid. intros i s. apply imap_fit_valid. Qed.

Lemma deck_valid_fixed (d : Deck) : deck_valid d -> engine d = d.
Proof.
  intros [Hslides Hchart]. unfold ContentFitEngine.engine.
  assert (Hmap : imap fit_slide d = d).
  { apply list_eq. intros i. rewrite list_lookup_imap.
    destruct (d !! i) as [s|] eqn:E; simpl; [|reflexivity].
    rewrite fit_slide_id by (apply Hslides, E). reflexivity. }
  rewrite Hmap. unfold ContentFitEngine.chart_guarantee.
  destruct (has_chart d) eqn:Hc; [reflexivity|].
  destruct Hchart as [Hyes|Hshort]; [congruence|].
  destruct d as [|s0 [|s1 d]]; [reflexivity..|simpl in Hshort; lia].
Qed.

Lemma engine_length (d : Deck) : length (engine d) = length d.
Proof.
  unfold ContentFitEngine.engine, ContentFitEngine.chart_guarantee.
  destruct (has_chart _); [apply length_imap|].
  destruct (slide_to_convert _); [rewrite length_alter|]; apply length_imap.
Qed.

Lemma has_chart_count (d : Deck) : has_chart d = true -> 1 <= chart_count d.
Proof.
  unfold has_chart, chart_count. induction d as [|s d IH]; [discriminate|].
  intros H. rewrite filter_cons.
  destruct (decide (is_chart s = true)) as [Hy|Hn]; [simpl; lia|].
  apply IH. simpl in H. apply orb_true_iff in H as [H|H]; [contradiction|exact H].
Qed.

Lemma engine_no_empty_slide (d : Deck) :
  Forall (fun s => slide_empty s = false) (engine d).
Proof.
  apply Forall_lookup. intros i s Hs.
  destruct (engine_valid d) as [Hslides _]. apply (Hslides i s Hs).
Qed.

Lemma engine_has_chart (d : Deck) : 2 <= length d -> 1 <= chart_count (engine d).
Proof.
  intros Hlen. apply has_chart_count.
  destruct (engine_valid d) as [_ [Hc|Hshort]]; [exact Hc|].
  rewrite engine_length in Hshort. lia.
Qed.

End EngineFacts.

Section EngineGuarantees.

Import ContentFitEngine.

Variable compress : Text -> nat -> option Text.
Variables max_rows max_cols max_events : positive.
Variables large_upto medium_upto : nat.

Local Abbreviation fit_slide :=
  (ContentFitEngine.fit_slide compress max_rows max_cols max_events large_upto medium_upto).
Local Abbreviation deck_valid :=
  (ContentFitEngine.deck_valid max_rows max_cols max_events large_upto medium_upto).
Local Abbreviation engine :=
  (ContentFitEngine.engine compress max_rows max_cols max_events large_upto medium_upto).

Variable render : Deck -> option string.
Variable order : list string.

Local Abbreviation terminal_step :=
  (Orchestrator.terminal_step compress max_rows max_cols max_events
     large_upto medium_upto render order).

(** Every job of a store built by calls on the empty store carries a
    request that passed the check of [create]. *)
Lemma run_keeps_requests_valid (ops : list JobStateMachine.Op)
    (st : JobStateMachine.Store) :
  (forall id job, JobStateMachine.jobs st !! id = Some job ->
     JobStateMachine.valid_request (JobStateMachine.request job) = true) ->
  forall id job,
    JobStateMachine.jobs (JobStateMachine.run order ops st) !! id = Some job ->
    JobStateMachine.valid_request (JobStateMachine.request job) = true.
Proof.
  revert st. induction ops as [|op ops IH]; intros st Hst; [exact Hst|].
  unfold JobStateMachine.run. simpl. apply IH. clear IH.
  unfold flip, JobStateMachine.run_op.
  destruct (JobStateMachine.step order op st) as [e|st1] eqn:Hstep; [exact Hst|].
  intros id job Hjob. destruct op as [r now|i to p desc|i detail|i ref];
    simpl in Hstep.
  - unfold JobStateMachine.create in Hstep.
    destruct (JobStateMachine.valid_request r) eqn:Hr; [|discriminate Hstep].
    injection Hstep as <-. simpl in Hjob.
    destruct (decide (id = JobStateMachine.next_id st)) as [->|Hne].
    + rewrite lookup_insert_eq in Hjob. injection Hjob as <-. exact Hr.
    + rewrite lookup_insert_ne in Hjob by congruence. exact (Hst _ _ Hjob).
  - unfold JobStateMachine.advance in Hstep.
    destruct (JobStateMachine.jobs st !! i) as [j|] eqn:Hj; [|discriminate Hstep].
    destruct (_ && _); [|discriminate Hstep]. injection Hstep as <-. simpl in Hjob.
    destruct (decide (id = i)) as [->|Hne].
    + rewrite lookup_insert_eq in Hjob. injection Hjob as <-. exact (Hst _ _ Hj).
    + rewrite lookup_insert_ne in Hjob by congruence. exact (Hst _ _ Hjob).
  - unfold JobStateMachine.fail in Hstep.
    destruct (JobStateMachine.jobs st !! i) as [j|] eqn:Hj; [|discriminate Hstep].
    destruct (bool_decide (JobStateMachine.status j = "error"));
      [injection Hstep as <-; exact (Hst _ _ Hjob)|].
    destruct (bool_decide (JobStateMachine.status j = "done")); [discriminate Hstep|].
    injection Hstep as <-. simpl in Hjob.
    destruct (decide (id = i)) as [->|Hne].
    + rewrite lookup_insert_eq in Hjob. injection Hjob as <-. exact (Hst _ _ Hj).
    + rewrite lookup_insert_ne in Hjob by congruence. exact (Hst _ _ Hjob).
  - unfold JobStateMachine.complete in Hstep.
    destruct (JobStateMachine.jobs st !! i) as [j|] eqn:Hj; [|discriminate Hstep].
    destruct (bool_decide _); [|discriminate Hstep]. injection Hstep as <-.
    simpl in Hjob. destruct (decide (id = i)) as [->|Hne].
    + rewrite lookup_insert_eq in Hjob. injection Hjob as <-. exact (Hst _ _ Hj).
    + rewrite lookup_insert_ne in Hjob by congruence. exact (Hst _ _ Hjob).
Qed.



(** C8. The engine is idempotent: applying it twice to a slide model
    gives the same result as applying it once, whatever the compression
    delegate answers the second time; its result is valid, and on an
    already valid deck it changes nothing. *)
Theorem engine_is_idempotent (compress' : Text -> nat -> option Text) (d : Deck) :
  engine (engine d) = engine d
  /\ ContentFitEngine.engine compress' max_rows max_cols max_events
       large_upto medium_upto (engine d) = engine d
  /\ deck_valid (engine d)
  /\ (deck_valid d -> engine d = d).
Proof.
  split; [apply deck_valid_fixed, engine_valid|].
  split; [apply deck_valid_fixed, engine_valid|].
  split; [apply engine_valid|apply deck_valid_fixed].
Qed.

End EngineGuarantees.



Lemma engine_is_idempotent_witness :
  ContentFitEngine.sample_engine ContentFitEngine.tidy_deck = ContentFitEngine.tidy_deck.
Proof.
  apply (engine_is_idempotent ContentFitEngine.unavailable
           4%positive 3%positive 3%positive 120 400 ContentFitEngine.unavailable
           ContentFitEngine.tidy_deck).
  split; [|left; reflexivity].
  intros i s Hs. destruct i as [|[|i]]; simpl in Hs; [| |discriminate Hs];
    injection Hs as <-.
  - split; [exact I|]. split; [reflexivity|]. split.
    { split; repeat constructor. }
    split; [congruence|reflexivity].
  - split; [exact I|]. split; [reflexivity|]. split.
    { split; constructor. }
    split; [reflexivity|reflexivity].
Defined.

(** ** Further properties of the front end *)

(** X1. The DeckStatus component presents a job whose status is the k-th
    step as having finished exactly the k steps before it, with that
    step in process and the later ones waiting; for error the first
    step is flagged, and for a status it does not know (such as
    rendering) every step waits. *)
Theorem stepItems_show_prefix (k : nat) (s : string) :
  DeckStatusView.statusSteps !! k = Some s ->
  DeckStatusView.stepItems s
  = replicate k DeckStatusView.step_finish
    ++ DeckStatusView.step_process
       :: replicate (length DeckStatusView.statusSteps - S k) DeckStatusView.step_wait
  /\ DeckStatusView.stepItems "error"
     = DeckStatusView.step_error :: replicate 11 DeckStatusView.step_wait
  /\ DeckStatusView.stepItems "rendering" = replicate 12 DeckStatusView.step_wait.
Proof.
  intros H. split; [|split; vm_compute; reflexivity].
  repeat (destruct k as [|k];
          [simpl in H; injection H as <-; vm_compute; reflexivity|]).
  discriminate H.
Qed.

Lemma stepItems_show_prefix_witness :
  DeckStatusView.stepItems "charts"
  = replicate 3 DeckStatusView.step_finish
    ++ DeckStatusView.step_process :: replicate 8 DeckStatusView.step_wait.
Proof.
  apply (stepItems_show_prefix 3 "charts"). reflexivity.
Defined.

(** X3. Five of the [statusSteps], declared as [DeckStatus[]], are not
    members of the [DeckStatus] union of types.ts, while every member
    of the union other than error is one of the steps. *)
Theorem statusSteps_outside_DeckStatus :
  filter (fun s => Types.is_DeckStatus s = false) DeckStatusView.statusSteps
  = ["charts"; "design"; "images"; "adjust"; "generating"]
  /\ Forall (fun s => s = Types.error
                      \/ Types.status_name s ∈ DeckStatusView.statusSteps)
       Types.all_DeckStatus.
Proof.
  split; [vm_compute; reflexivity|].
  apply Forall_forall. intros s _.
  destruct s; first [left; reflexivity | right; compute_done].
Qed.

(** * The rest of the front end and the reference pipeline *)

(** ** handleSubmit of the page, over the POST handler *)

(** X6. Submitting through the POST handler, when the service reports a
    failure only with a status code outside 200-299: the page stays in
    its loading state exactly when the request was sent on and the
    service answered with a deck, whose id it then adopts; in every
    other case it keeps the id it had, stops loading and shows the
    creation error. *)
Theorem handleSubmit_adopts_created_deck
    (fetch_decks : Route.Body -> Route.FetchOutcome) (b : Route.Body) (st : Page.State) :
  (forall b' code text json,
      fetch_decks b' = Route.Responded false code text json -> Http.ok code = false) ->
  let st' := Page.handleSubmit (Some (fst (Route.POST fetch_decks (Some b)))) st in
  (Page.isLoading st' = true
   <-> snd (Route.POST fetch_decks (Some b)) = [b]
       /\ exists code text data,
            fetch_decks b = Route.Responded true code text (Some data)
            /\ Page.deckId st' = Some (Route.deckId data)
            /\ Page.statusData st' = None)
  /\ (Page.isLoading st' = false ->
      Page.deckId st' = Page.deckId st
      /\ Page.polling st' = Page.polling st
      /\ Page.statusData st'
         = Some (Page.error_status "" "Failed to create deck. Please try again.")).
Proof.
  intros Hfetch st'. subst st'. unfold Route.POST.
  destruct (Route.prompt_refused (Route.prompt b)) as [m|[]]; simpl;
    try (split; [split; [discriminate|intros [? _]; discriminate]|auto]; fail).
  destruct (Route.slideCount_refused (Route.slideCount b)) as [m|[]]; simpl;
    try (split; [split; [discriminate|intros [? _]; discriminate]|auto]; fail).
  destruct (fetch_decks b) as [[] code text [data|]| | |] eqn:E; simpl.
  - split; [|discriminate]. split; [|reflexivity].
    intros _. split; [reflexivity|]. exists code, text, data. auto.
  - split; [|auto]. split; [discriminate|].
    intros (_ & c & t & d & [=] & _).
  - destruct (WebResponse.accepts_body code); unfold Page.handleSubmit; simpl;
      rewrite ?(Hfetch _ _ _ _ E);
      (split; [|auto]); (split; [discriminate|]);
      intros (_ & c & t & d & [=] & _).
  - destruct (WebResponse.accepts_body code); unfold Page.handleSubmit; simpl;
      rewrite ?(Hfetch _ _ _ _ E);
      (split; [|auto]); (split; [discriminate|]);
      intros (_ & c & t & d & [=] & _).
  - split; [|auto]. split; [discriminate|].
    intros (_ & c & t & d & [=] & _).
  - split; [|auto]. split; [discriminate|].
    intros (_ & c & t & d & [=] & _).
  - split; [|auto]. split; [discriminate|].
    intros (_ & c & t & d & [=] & _).
Qed.

Lemma handleSubmit_adopts_created_deck_witness :
  Page.isLoading
    (Page.handleSubmit
       (Some (fst (Route.POST Route.sample_service (Some Route.request_for_kids))))
       Page.initial) = true
  <-> snd (Route.POST Route.sample_service (Some Route.request_for_kids))
      = [Route.request_for_kids]
      /\ exists code text data,
           Route.sample_service Route.request_for_kids
           = Route.Responded true code text (Some data)
           /\ Page.deckId
                (Page.handleSubmit
                   (Some (fst (Route.POST Route.sample_service
                                 (Some Route.request_for_kids))))
                   Page.initial) = Some (Route.deckId data)
           /\ Page.statusData
                (Page.handleSubmit
                   (Some (fst (Route.POST Route.sample_service
                                 (Some Route.request_for_kids))))
                   Page.initial) = None.
Proof.
  apply (handleSubmit_adopts_created_deck Route.sample_service
           Route.request_for_kids Page.initial).
  intros b' code text json H. discriminate H.
Defined.

(** ** generate_deck of FASTAPI_SPEC.md *)

Lemma lookup_write (id : string) (f : FastApiSpec.DeckEntry -> FastApiSpec.DeckEntry)
    (sv : FastApiSpec.Server) :
  FastApiSpec.decks (FastApiPipeline.write id f sv) !! id
  = f <$> FastApiSpec.decks sv !! id.
Proof. apply lookup_alter_eq. Qed.

Lemma lookup_write_ne (id other : string)
    (f : FastApiSpec.DeckEntry -> FastApiSpec.DeckEntry) (sv : FastApiSpec.Server) :
  other <> id ->
  FastApiSpec.decks (FastApiPipeline.write id f sv) !! other
  = FastApiSpec.decks sv !! other.
Proof. intros H. apply lookup_alter_ne. congruence. Qed.

Lemma write_is_Some (id k : string)
    (f : FastApiSpec.DeckEntry -> FastApiSpec.DeckEntry) (sv : FastApiSpec.Server) :
  is_Some (FastApiSpec.decks (FastApiPipeline.write id f sv) !! k)
  <-> is_Some (FastApiSpec.decks sv !! k).
Proof.
  destruct (decide (k = id)) as [->|Hne].
  - rewrite lookup_write, fmap_is_Some. reflexivity.
  - rewrite lookup_write_ne by exact Hne. reflexivity.
Qed.

Section GenerationFacts.

Variables Outline Content Optimized : Type.
Variable generate_outline : FastApiSpec.DeckRequest -> string + Outline.
Variable generate_content : Outline -> FastApiSpec.DeckRequest -> string + Content.
Variable fix_overflow : Content -> string -> string + Optimized.
Variable render_pptx : Optimized -> string -> string -> string + string.

(** Splits on the outcome of each awaited call in turn. *)
Ltac pipeline_cases :=
  destruct (generate_outline _);
  [|destruct (generate_content _ _);
    [|destruct (fix_overflow _ _); [|destruct (render_pptx _ _ _)]]].

Local Abbreviation generate_deck :=
  (FastApiPipeline.generate_deck Outline Content Optimized
     generate_outline generate_content fix_overflow render_pptx).
Local Abbreviation after_generate :=
  (FastApiPipeline.after_generate Outline Content Optimized
     generate_outline generate_content fix_overflow render_pptx).
Local Abbreviation rendered :=
  (FastApiPipeline.rendered Outline Content Optimized
     generate_outline generate_content fix_overflow render_pptx).

Local Abbreviation lifetime :=
  (FastApiPipeline.lifetime Outline Content Optimized
     generate_outline generate_content fix_overflow render_pptx).

(** What the status endpoint shows over the lifetime of a job: outline
    at 0, then the steps the task enters with their progress, and, when
    the call of step [k] raises, error at the progress of that step. *)
Lemma lifetime_observed
    (deck_id : string) (request : FastApiSpec.DeckRequest) (sv0 : FastApiSpec.Server) :
  exists k,
    1 <= k <= 5
    /\ FastApiPipeline.observed deck_id <$> lifetime deck_id request sv0
       = Some <$> (("outline", 0%Z) :: take k FastApiPipeline.progress_steps
                   ++ match rendered deck_id request with
                      | inr _ => []
                      | inl _ => [("error", (20 * Z.of_nat k)%Z)]
                      end)
    /\ match rendered deck_id request with
       | inr _ => k = 5
       | inl _ => k <= 4
       end.
Proof using Type.
  unfold FastApiPipeline.lifetime, FastApiPipeline.generate_deck,
    FastApiPipeline.rendered, FastApiPipeline.observed, FastApiSpec.create_deck.
  cbn [snd FastApiSpec.decks]. rewrite lookup_insert_eq.
  pipeline_cases;
    [exists 1|exists 2|exists 3|exists 4|exists 5];
    (split; [lia|]); (split; [|lia]);
    cbn [fmap list_fmap]; rewrite ?lookup_write;
    cbn [FastApiSpec.decks]; rewrite lookup_insert_eq; reflexivity.
Qed.

(** C1, amended. Every status a job exposes is one of outline, plan,
    fix, render, done or error; at every moment of the lifetime of a
    job, from its creation on, the states recorded so far are a prefix
    of outline, plan, fix, render, done, possibly followed by error:
    no state is skipped, repeated or visited out of order. A job whose
    four steps return has gone through all five states, and one whose
    step raises has gone through the states up to that step and then
    to error. *)
Theorem job_states_follow_pipeline_flow
    (deck_id : string) (request : FastApiSpec.DeckRequest) (sv0 : FastApiSpec.Server) :
  let seen := FastApiPipeline.observed deck_id <$> lifetime deck_id request sv0 in
  Forall (fun o => exists status p,
                     o = Some (status, p)
                     /\ status ∈ FastApiPipeline.pipeline_flow ++ ["error"]) seen
  /\ (forall n, exists k,
        FastApiPipeline.recorded (take n seen) = take k FastApiPipeline.pipeline_flow
        \/ FastApiPipeline.recorded (take n seen)
           = take k FastApiPipeline.pipeline_flow ++ ["error"])
  /\ match rendered deck_id request with
     | inr _ => FastApiPipeline.recorded seen = FastApiPipeline.pipeline_flow
     | inl _ => exists k, 1 <= k <= 4
                          /\ FastApiPipeline.recorded seen
                             = take k FastApiPipeline.pipeline_flow ++ ["error"]
     end
  /\ NoDup (FastApiPipeline.pipeline_flow ++ ["error"]).
Proof using Type.
  intros seen. subst seen.
  destruct (lifetime_observed deck_id request sv0) as (k & Hk & -> & Hend).
  assert (Hcases : k = 1 \/ k = 2 \/ k = 3 \/ k = 4 \/ k = 5) by lia.
  split; [|split; [|split]].
  - destruct (rendered deck_id request);
      destruct Hcases as [->|[->|[->|[->| ->]]]]; try lia;
      repeat (apply List.Forall_cons;
              [eexists _, _; split; [reflexivity|compute_done]|]);
      apply List.Forall_nil.
  - intros n.
    destruct (rendered deck_id request);
      destruct Hcases as [->|[->|[->|[->| ->]]]]; try lia;
      do 8 (try destruct n as [|n]);
      first [exists 0; left; vm_compute; reflexivity
            |exists 1; left; vm_compute; reflexivity
            |exists 2; left; vm_compute; reflexivity
            |exists 3; left; vm_compute; reflexivity
            |exists 4; left; vm_compute; reflexivity
            |exists 5; left; vm_compute; reflexivity
            |exists 1; right; vm_compute; reflexivity
            |exists 2; right; vm_compute; reflexivity
            |exists 3; right; vm_compute; reflexivity
            |exists 4; right; vm_compute; reflexivity].
  - destruct (rendered deck_id request);
      destruct Hcases as [->|[->|[->|[->| ->]]]]; try lia;
      first [reflexivity
            |exists 1; split; [lia|reflexivity]
            |exists 2; split; [lia|reflexivity]
            |exists 3; split; [lia|reflexivity]
            |exists 4; split; [lia|reflexivity]].
  - apply (bool_decide_unpack _). vm_compute. exact I.
Qed.




(** X10. The task writes to its own deck only: in every state it goes
    through, the queue of tasks, every other deck and the set of stored
    ids are as before; for an id that is not stored it changes nothing. *)
Theorem generate_deck_touches_one_deck
    (deck_id : string) (request : FastApiSpec.DeckRequest)
    (sv s : FastApiSpec.Server) :
  s ∈ generate_deck deck_id request sv ->
  FastApiSpec.background_tasks s = FastApiSpec.background_tasks sv
  /\ (forall other, other <> deck_id ->
        FastApiSpec.decks s !! other = FastApiSpec.decks sv !! other)
  /\ (forall k, is_Some (FastApiSpec.decks s !! k)
                <-> is_Some (FastApiSpec.decks sv !! k))
  /\ (forall sv0, FastApiSpec.decks sv0 !! deck_id = None ->
        after_generate deck_id request sv0 = sv0).
Proof using Type.
  intros Hs. repeat split.
  - revert Hs. unfold FastApiPipeline.generate_deck.
    destruct (FastApiSpec.decks sv !! deck_id); [|intros H; inversion H].
    pipeline_cases; intros Hs;
      repeat (apply elem_of_cons in Hs as [->|Hs]; [reflexivity|]);
      inversion Hs.
  - intros other Hne. revert Hs. unfold FastApiPipeline.generate_deck.
    destruct (FastApiSpec.decks sv !! deck_id); [|intros H; inversion H].
    pipeline_cases; intros Hs;
      repeat (apply elem_of_cons in Hs as [->|Hs];
              [rewrite !lookup_write_ne by exact Hne; reflexivity|]);
      inversion Hs.
  - revert Hs. unfold FastApiPipeline.generate_deck.
    destruct (FastApiSpec.decks sv !! deck_id); [|intros H; inversion H].
    pipeline_cases; intros Hs;
      repeat (apply elem_of_cons in Hs as [->|Hs];
              [rewrite !write_is_Some; exact (fun H => H)|]);
      inversion Hs.
  - revert Hs. unfold FastApiPipeline.generate_deck.
    destruct (FastApiSpec.decks sv !! deck_id); [|intros H; inversion H].
    pipeline_cases; intros Hs;
      repeat (apply elem_of_cons in Hs as [->|Hs];
              [rewrite !write_is_Some; exact (fun H => H)|]);
      inversion Hs.
  - intros sv0 H0. unfold FastApiPipeline.after_generate,
      FastApiPipeline.generate_deck. rewrite H0. reflexivity.
Qed.

End GenerationFacts.

(** C1, as worded, fails. The job of the sample request, whose steps all
    return, is created in outline, not in received, and goes on
    through plan, fix and render, none of which is in the specified
    enumeration; the states recorded for it are no prefix of the
    specified ordering. *)
Lemma pipeline_exposes_plan :
  FastApiPipeline.recorded
    (FastApiPipeline.observed "d1"
     <$> FastApiPipeline.lifetime (list string) (list string) (list string)
           FastApiPipeline.outline_ok FastApiPipeline.content_ok
           FastApiPipeline.overflow_ok FastApiPipeline.render_ok
           "d1" FastApiSpec.sample_request FastApiSpec.empty_server)
  = ["outline"; "plan"; "fix"; "render"; "done"]
  /\ FastApiPipeline.status_in "d1" FastApiPipeline.created_d1 = Some "outline"
  /\ Forall (fun s => s ∉ JobStateMachine.spec_ordering ++ ["error"])
       ["plan"; "fix"; "render"]
  /\ ~ exists k,
        ["outline"; "plan"; "fix"; "render"; "done"]
        = take k JobStateMachine.spec_ordering
        \/ ["outline"; "plan"; "fix"; "render"; "done"]
           = take k JobStateMachine.spec_ordering ++ ["error"].
Proof.
  split; [vm_compute; reflexivity|]. split; [vm_compute; reflexivity|].
  split.
  { repeat (apply List.Forall_cons; [apply (bool_decide_unpack _); vm_compute; exact I|]).
    apply List.Forall_nil. }
  intros [k [H|H]]; destruct k as [|k]; simpl in H; discriminate H.
Qed.




Lemma generate_deck_touches_one_deck_witness :
  FastApiSpec.background_tasks
    (FastApiPipeline.write "d1" (FastApiPipeline.update_status "outline" 20)
       FastApiPipeline.created_d1)
  = [("d1", FastApiSpec.sample_request)].
Proof.
  destruct (generate_deck_touches_one_deck (list string) (list string) (list string)
              FastApiPipeline.outline_ok FastApiPipeline.content_ok
              FastApiPipeline.overflow_ok FastApiPipeline.render_fails
              "d1" FastApiSpec.sample_request FastApiPipeline.created_d1
              (FastApiPipeline.write "d1" (FastApiPipeline.update_status "outline" 20)
                 FastApiPipeline.created_d1)) as [H _].
  - vm_compute. constructor.
  - exact H.
Defined.

(** ** Polling the status route *)

Lemma poll_through_running (sv : FastApiSpec.Server) (id : string)
    (e : FastApiSpec.DeckEntry) (st : Page.State) :
  FastApiSpec.decks sv !! id = Some e ->
  Page.terminal (FastApiSpec.status e) = false ->
  Page.poll_through (Http.serve_status sv) id st
  = {| Page.deckId := Page.deckId st; Page.isLoading := Page.isLoading st;
       Page.statusData := Some (Http.status_json id e);
       Page.polling := Page.polling st; Page.list_reloads := Page.list_reloads st |}.
Proof.
  intros He Ht.
  unfold Page.poll_through, StatusRoute.GET, Http.serve_status, FastApiSpec.get_status.
  rewrite He. simpl. rewrite Ht. reflexivity.
Qed.

Lemma poll_through_terminal (sv : FastApiSpec.Server) (id : string)
    (e : FastApiSpec.DeckEntry) (st : Page.State) :
  FastApiSpec.decks sv !! id = Some e ->
  Page.terminal (FastApiSpec.status e) = true ->
  Page.poll_through (Http.serve_status sv) id st
  = {| Page.deckId := Page.deckId st; Page.isLoading := false;
       Page.statusData := Some (Http.status_json id e);
       Page.polling := false; Page.list_reloads := S (Page.list_reloads st) |}.
Proof.
  intros He Ht.
  unfold Page.poll_through, StatusRoute.GET, Http.serve_status, FastApiSpec.get_status.
  rewrite He. simpl. rewrite Ht. reflexivity.
Qed.

Lemma poll_through_unknown (sv : FastApiSpec.Server) (id : string) (st : Page.State) :
  FastApiSpec.decks sv !! id = None ->
  Page.poll_through (Http.serve_status sv) id st
  = {| Page.deckId := Page.deckId st; Page.isLoading := false;
       Page.statusData :=
         Some (Page.error_status id "Failed to get status. Please refresh the page.");
       Page.polling := false; Page.list_reloads := Page.list_reloads st |}.
Proof.
  intros He.
  unfold Page.poll_through, StatusRoute.GET, Http.serve_status, FastApiSpec.get_status.
  rewrite He. reflexivity.
Qed.

Lemma terminal_false (s : string) :
  Page.terminal s = false <-> s <> "done" /\ s <> "error".
Proof.
  unfold Page.terminal. rewrite orb_false_iff, !bool_decide_eq_false. reflexivity.
Qed.

(** X11. One poll of a running session, through the status route,
    against the reference server: the timer stays exactly when the deck
    is stored with a status other than done and error; a stored deck is
    shown with its stored status and progress; for an id that is not
    stored the page shows the polling error and stops loading. *)
Theorem poll_continues_iff_deck_in_progress
    (sv : FastApiSpec.Server) (id : string) (st : Page.State) :
  Page.polling st = true ->
  let st' := Page.poll_through (Http.serve_status sv) id st in
  (Page.polling st' = true
   <-> exists e, FastApiSpec.decks sv !! id = Some e
                 /\ FastApiSpec.status e <> "done" /\ FastApiSpec.status e <> "error")
  /\ (forall e, FastApiSpec.decks sv !! id = Some e ->
        Page.statusData st' = Some (Http.status_json id e))
  /\ (FastApiSpec.decks sv !! id = None ->
      Page.statusData st'
      = Some (Page.error_status id "Failed to get status. Please refresh the page.")
      /\ Page.isLoading st' = false).
Proof.
  intros Hp st'. subst st'.
  destruct (FastApiSpec.decks sv !! id) as [e|] eqn:He.
  - destruct (Page.terminal (FastApiSpec.status e)) eqn:Ht.
    + rewrite (poll_through_terminal _ _ _ _ He Ht). simpl.
      split; [|split; [intros ? [= <-]; reflexivity|discriminate]].
      split; [discriminate|]. intros (e' & [= <-] & Hd).
      apply terminal_false in Hd. congruence.
    + rewrite (poll_through_running _ _ _ _ He Ht). simpl.
      split; [|split; [intros ? [= <-]; reflexivity|discriminate]].
      split; [|intros _; exact Hp]. intros _. exists e.
      split; [reflexivity|]. apply terminal_false. exact Ht.
  - rewrite (poll_through_unknown _ _ _ He). simpl.
    split; [|split; [discriminate|auto]].
    split; [discriminate|]. intros (e & [=] & _).
Qed.

Lemma poll_continues_iff_deck_in_progress_witness :
  Page.polling
    (Page.poll_through (Http.serve_status FastApiPipeline.created_d1) "d1"
       (Page.polling_started "d1")) = true
  <-> exists e, FastApiSpec.decks FastApiPipeline.created_d1 !! "d1" = Some e
                /\ FastApiSpec.status e <> "done" /\ FastApiSpec.status e <> "error".
Proof.
  apply (poll_continues_iff_deck_in_progress FastApiPipeline.created_d1 "d1"
           (Page.polling_started "d1")).
  reflexivity.
Defined.

(** X17. Through the status route, whatever the service behind it: a
    poll ends with a status exactly when the service answered with a
    code in 200-299 and a body that parses, and the status is then the
    service's own; in every other case the poll ends in the catch
    block, and a session whose poll ends there shows the polling error
    for its deck with the timer cleared. *)
Theorem poll_outcome_through_route
    (fetch_status : string -> Http.Fetched Http.DeckStatusResponse)
    (id : string) (st : Page.State) :
  (forall data,
      Page.outcome_of (StatusRoute.GET fetch_status id) = Page.Answered data
      <-> exists code text,
            fetch_status id = Http.Responded code text (Some data)
            /\ Http.ok code = true)
  /\ (Page.outcome_of (StatusRoute.GET fetch_status id) = Page.Failed ->
      Page.statusData (Page.poll_through fetch_status id st)
      = Some (Page.error_status id "Failed to get status. Please refresh the page.")
      /\ Page.polling (Page.poll_through fetch_status id st) = false
      /\ Page.isLoading (Page.poll_through fetch_status id st) = false).
Proof.
  split.
  - intros data. unfold StatusRoute.GET.
    destruct (fetch_status id) as [code text [d|]|] eqn:E.
    + destruct (Http.ok code) eqn:Hok.
      * unfold Page.outcome_of. simpl. split.
        -- intros [= <-]. exists code, text. auto.
        -- intros (c & t & [= _ _ <-] & _). reflexivity.
      * unfold Page.outcome_of.
        destruct (WebResponse.accepts_body code); simpl; rewrite ?Hok;
          (split; [discriminate|]);
          intros (c & t & [= <- _ _] & Hc); congruence.
    + destruct (Http.ok code) eqn:Hok; unfold Page.outcome_of;
        [|destruct (WebResponse.accepts_body code)]; simpl; rewrite ?Hok;
        (split; [discriminate|]); intros (c & t & [=] & _).
    + unfold Page.outcome_of. simpl. split; [discriminate|].
      intros (c & t & [=] & _).
  - intros H. unfold Page.poll_through. rewrite H. simpl. auto.
Qed.

Lemma poll_outcome_through_route_witness :
  Page.statusData
    (Page.poll_through (Http.serve_status FastApiSpec.empty_server) "d1"
       (Page.polling_started "d1"))
  = Some (Page.error_status "d1" "Failed to get status. Please refresh the page.").
Proof.
  destruct (poll_outcome_through_route (Http.serve_status FastApiSpec.empty_server)
              "d1" (Page.polling_started "d1")) as [_ H].
  destruct H as [H _]; [vm_compute; reflexivity|exact H].
Defined.

(** X12. A polling session, whatever the outcomes and the state it
    starts in: the timer and the loading flag stay on only as long as
    every outcome processed was a status other than done and error,
    the list of decks is reloaded once per done or error status read,
    the deck id is kept, and the status shown is that of the last
    outcome processed. *)
Theorem polling_session_summary
    (id : string) (os : list Page.PollOutcome) (st0 : Page.State) :
  let st := Page.poll_all id os st0 in
  Page.polling st = Page.polling st0 && forallb (fun o => negb (Page.stops o)) os
  /\ Page.isLoading st
     = Page.isLoading st0 && forallb (fun o => negb (Page.stops o)) os
  /\ Page.list_reloads st
     = Page.list_reloads st0 + length (filter (fun o => Page.answered_terminal o = true) os)
  /\ Page.deckId st = Page.deckId st0
  /\ Page.statusData st
     = match last os with
       | None => Page.statusData st0
       | Some (Page.Answered data) => Some data
       | Some Page.Failed =>
           Some (Page.error_status id "Failed to get status. Please refresh the page.")
       end.
Proof.
  simpl. induction os as [|o os IH] using rev_ind.
  - simpl. rewrite !andb_true_r, Nat.add_0_r. auto.
  - unfold Page.poll_all in *. rewrite foldl_snoc, forallb_app, filter_app, length_app.
    rewrite last_snoc. destruct IH as (Hp & Hl & Hr & Hd & _).
    set (st := foldl _ st0 os) in *.
    destruct o as [data|].
    + destruct (Page.terminal (Http.status data)) eqn:Ht.
      * rewrite filter_cons_True by exact Ht. simpl. rewrite Ht. simpl.
        rewrite !andb_false_r. repeat split; [lia|exact Hd].
      * rewrite filter_cons_False by (simpl; rewrite Ht; discriminate).
        simpl. rewrite Ht. simpl. rewrite !andb_true_r, Nat.add_0_r. auto.
    + rewrite filter_cons_False by discriminate. simpl.
      rewrite !andb_false_r, Nat.add_0_r. auto.
Qed.

(** ** The page while a deck is generated *)

Lemma poll_states_running (id : string) (seen : list FastApiSpec.Server)
    (st0 : Page.State) :
  Forall (fun s => exists e, FastApiSpec.decks s !! id = Some e
                             /\ Page.terminal (FastApiSpec.status e) = false) seen ->
  Page.polling (Page.poll_states id seen st0) = Page.polling st0
  /\ Page.isLoading (Page.poll_states id seen st0) = Page.isLoading st0
  /\ Page.list_reloads (Page.poll_states id seen st0) = Page.list_reloads st0
  /\ Page.deckId (Page.poll_states id seen st0) = Page.deckId st0
  /\ Page.statusData (Page.poll_states id seen st0)
     = match last seen with
       | None => Page.statusData st0
       | Some s => Http.status_json id <$> FastApiSpec.decks s !! id
       end.
Proof.
  induction seen as [|s seen IH] using rev_ind; intros Hall.
  - simpl. auto.
  - apply Forall_app in Hall as [Hseen Hs].
    apply Forall_cons in Hs as [(e & He & Ht) _].
    destruct (IH Hseen) as (Hp & Hl & Hr & Hd & _).
    unfold Page.poll_states in *. rewrite foldl_snoc, last_snoc.
    rewrite (poll_through_running _ _ _ _ He Ht). simpl. rewrite He. auto.
Qed.

Section GenerationSeen.

Variables Outline Content Optimized : Type.
Variable generate_outline : FastApiSpec.DeckRequest -> string + Outline.
Variable generate_content : Outline -> FastApiSpec.DeckRequest -> string + Content.
Variable fix_overflow : Content -> string -> string + Optimized.
Variable render_pptx : Optimized -> string -> string -> string + string.

Ltac pipeline_cases :=
  destruct (generate_outline _);
  [|destruct (generate_content _ _);
    [|destruct (fix_overflow _ _); [|destruct (render_pptx _ _ _)]]].

Local Abbreviation generate_deck :=
  (FastApiPipeline.generate_deck Outline Content Optimized
     generate_outline generate_content fix_overflow render_pptx).
Local Abbreviation after_generate :=
  (FastApiPipeline.after_generate Outline Content Optimized
     generate_outline generate_content fix_overflow render_pptx).
Local Abbreviation rendered :=
  (FastApiPipeline.rendered Outline Content Optimized
     generate_outline generate_content fix_overflow render_pptx).

(** The states before the last one hold the deck in one of the four
    running steps, with a progress above 0. *)
Lemma running_states (deck_id : string) (request : FastApiSpec.DeckRequest)
    (sv s : FastApiSpec.Server) (e0 : FastApiSpec.DeckEntry) :
  FastApiSpec.decks sv !! deck_id = Some e0 ->
  s ∈ removelast (generate_deck deck_id request sv) ->
  exists e, FastApiSpec.decks s !! deck_id = Some e
            /\ FastApiSpec.status e ∈ ["outline"; "plan"; "fix"; "render"]
            /\ (0 < FastApiSpec.progress e)%Z.
Proof using Type.
  intros He. unfold FastApiPipeline.generate_deck. rewrite He.
  pipeline_cases; simpl; intros Hs;
    repeat (apply elem_of_cons in Hs as [->|Hs];
            [rewrite ?lookup_write, ?lookup_alter_eq, He; simpl;
             eexists; split; [reflexivity|]; split; [compute_done|reflexivity]|]);
    inversion Hs.
Qed.

(** The entry the task leaves for a stored deck. *)
Lemma after_generate_entry (deck_id : string) (request : FastApiSpec.DeckRequest)
    (sv : FastApiSpec.Server) (e0 : FastApiSpec.DeckEntry) :
  FastApiSpec.decks sv !! deck_id = Some e0 ->
  exists e, FastApiSpec.decks (after_generate deck_id request sv) !! deck_id = Some e
            /\ FastApiSpec.status e
               = match rendered deck_id request with
                 | inr _ => "done"
                 | inl _ => "error"
                 end
            /\ FastApiSpec.error e
               = match rendered deck_id request with
                 | inr _ => FastApiSpec.error e0
                 | inl message => Some message
                 end.
Proof using Type.
  intros He.
  unfold FastApiPipeline.after_generate, FastApiPipeline.rendered,
    FastApiPipeline.generate_deck.
  rewrite He.
  pipeline_cases; simpl; rewrite ?lookup_write, ?lookup_alter_eq, He; simpl;
    eexists; split; try reflexivity; split; reflexivity.
Qed.

(** X13. The page from creation to the end of generation. A deck is
    created under a non-empty id and the page polls. As long as the
    polls read the state at creation or any state of the task before
    its last, the page keeps polling and loading, shows no download
    button, and shows the progress bar unless the last state read is
    that at creation. The first poll that reads the state the task
    leaves stops the timer and the loading flag, reloads the list of
    decks once, hides the progress bar, and shows the download button
    exactly when the four calls returned; otherwise it shows the text
    of the exception. *)
Theorem page_follows_generation
    (deck_id : string) (request : FastApiSpec.DeckRequest) (sv0 : FastApiSpec.Server)
    (seen : list FastApiSpec.Server) :
  deck_id <> "" ->
  let sv := snd (FastApiSpec.create_deck deck_id request sv0) in
  Forall (fun s => s ∈ sv :: removelast (generate_deck deck_id request sv)) seen ->
  let mid := Page.poll_states deck_id seen (Page.polling_started deck_id) in
  let fin :=
    Page.poll_through (Http.serve_status (after_generate deck_id request sv))
      deck_id mid in
  (Page.polling mid = true /\ Page.isLoading mid = true
   /\ StatusPanel.download_button mid = false
   /\ (last seen = Some sv -> StatusPanel.progress_bar mid = false)
   /\ (forall s, last seen = Some s -> s <> sv -> StatusPanel.progress_bar mid = true))
  /\ Page.polling fin = false /\ Page.isLoading fin = false
  /\ Page.list_reloads fin = 1
  /\ StatusPanel.progress_bar fin = false
  /\ StatusPanel.download_button fin
     = match rendered deck_id request with inr _ => true | inl _ => false end
  /\ (Page.statusData fin ≫= Http.error)
     = match rendered deck_id request with inr _ => None | inl message => Some message end.
Proof using Type.
  intros Hid sv Hseen mid fin.
  set (e0 := {| FastApiSpec.status := "outline"; FastApiSpec.progress := 0;
                FastApiSpec.file_path := None; FastApiSpec.error := None |}).
  assert (He0 : FastApiSpec.decks sv !! deck_id = Some e0)
    by apply lookup_insert_eq.
  assert (Hrun : forall s, s ∈ sv :: removelast (generate_deck deck_id request sv) ->
            exists e, FastApiSpec.decks s !! deck_id = Some e
                      /\ FastApiSpec.status e ∈ ["outline"; "plan"; "fix"; "render"]
                      /\ (s = sv /\ e = e0 \/ s <> sv /\ (0 < FastApiSpec.progress e)%Z)).
  { intros s Hs. apply elem_of_cons in Hs as [->|Hs].
    - exists e0. split; [exact He0|]. split; [compute_done|]. left. auto.
    - destruct (running_states _ _ _ _ _ He0 Hs) as (e & He & Hst & Hp).
      exists e. split; [exact He|]. split; [exact Hst|]. right.
      split; [|exact Hp]. intros ->. rewrite He0 in He.
      injection He as <-. simpl in Hp. lia. }
  assert (Hnot : forall st, st ∈ ["outline"; "plan"; "fix"; "render"] ->
                            Page.terminal st = false /\ st <> "done").
  { intros st Hst.
    repeat (apply elem_of_cons in Hst as [->|Hst]; [split; [reflexivity|discriminate]|]).
    inversion Hst. }
  assert (Hall : Forall (fun s => exists e, FastApiSpec.decks s !! deck_id = Some e
                     /\ Page.terminal (FastApiSpec.status e) = false) seen).
  { eapply Forall_impl; [exact Hseen|]. intros s Hs.
    destruct (Hrun s Hs) as (e & He & Hst & _).
    exists e. split; [exact He|]. apply Hnot. exact Hst. }
  destruct (poll_states_running deck_id seen (Page.polling_started deck_id) Hall)
    as (Hp & Hl & Hr & Hd & Hdata).
  fold mid in Hp, Hl, Hr, Hd, Hdata. simpl in Hp, Hl, Hr, Hd.
  split.
  { split; [exact Hp|]. split; [exact Hl|].
    unfold StatusPanel.download_button, StatusPanel.progress_bar.
    rewrite Hdata, Hd. destruct (last seen) as [s|] eqn:Hlast.
    - assert (Hin : s ∈ seen).
      { apply last_Some in Hlast as [l' ->]. apply elem_of_app. right. constructor. }
      rewrite Forall_forall in Hseen.
      destruct (Hrun s (Hseen s Hin)) as (e & He & Hst & Hprog).
      rewrite He. simpl. destruct (Hnot _ Hst) as [Ht Hdone].
      apply terminal_false in Ht as [_ Herr].
      unfold StatusPanel.shows_download, StatusPanel.shows_progress.
      rewrite !bool_decide_eq_false_2 by assumption. simpl.
      split; [reflexivity|]. split.
      + intros [= ->]. destruct Hprog as [[_ ->]|[Hne _]]; [reflexivity|contradiction].
      + intros s' [= <-] Hne. destruct Hprog as [[-> _]|[_ Hpos]]; [contradiction|].
        rewrite !andb_true_r. apply Z.ltb_lt. exact Hpos.
    - simpl. split; [reflexivity|]. split; [discriminate|]. intros s [=]. }
  destruct (after_generate_entry deck_id request sv e0 He0) as (e & He & Hst & Herr).
  assert (Ht : Page.terminal (FastApiSpec.status e) = true).
  { rewrite Hst. destruct (rendered deck_id request); reflexivity. }
  subst fin. rewrite (poll_through_terminal _ _ _ _ He Ht).
  unfold StatusPanel.download_button, StatusPanel.progress_bar,
    StatusPanel.shows_download, StatusPanel.shows_progress.
  simpl. rewrite Hr, Hd, Hst, Herr. simpl.
  assert (Htruthy : Page.truthy deck_id = true).
  { unfold Page.truthy. rewrite bool_decide_eq_false_2 by exact Hid. reflexivity. }
  rewrite Htruthy.
  destruct (rendered deck_id request); simpl;
    rewrite ?andb_false_r; repeat split; reflexivity.
Qed.

(** X14. Every status the task stores has a colour and a label in the
    tables of DeckList, but the twelve-step DeckStatus component knows
    only outline and done among them: for plan, fix and render it
    shows every step as waiting. *)
Theorem generated_statuses_in_components
    (deck_id : string) (request : FastApiSpec.DeckRequest)
    (sv s : FastApiSpec.Server) :
  s ∈ generate_deck deck_id request sv ->
  exists status,
    FastApiPipeline.status_in deck_id s = Some status
    /\ is_Some (DeckList.color (DeckList.render_status status))
    /\ is_Some (DeckList.children (DeckList.render_status status))
    /\ (status ∈ ["outline"; "done"; "error"]
        \/ DeckStatusView.stepItems status = replicate 12 DeckStatusView.step_wait).
Proof using Type.
  unfold FastApiPipeline.generate_deck, FastApiPipeline.status_in.
  destruct (FastApiSpec.decks sv !! deck_id) as [e0|] eqn:He;
    [|intros H; inversion H].
  pipeline_cases; intros Hs;
    repeat (apply elem_of_cons in Hs as [->|Hs];
            [rewrite ?lookup_write, He; simpl; eexists; split; [reflexivity|];
             split; [eexists; vm_compute; reflexivity|];
             split; [eexists; vm_compute; reflexivity|];
             first [left; compute_done | right; vm_compute; reflexivity]|]);
    inversion Hs.
Qed.

End GenerationSeen.

Lemma page_follows_generation_witness :
  StatusPanel.download_button
    (Page.poll_through
       (Http.serve_status
          (FastApiPipeline.after_generate (list string) (list string) (list string)
             FastApiPipeline.outline_ok FastApiPipeline.content_ok
             FastApiPipeline.overflow_ok FastApiPipeline.render_ok
             "d1" FastApiSpec.sample_request FastApiPipeline.created_d1))
       "d1"
       (Page.poll_states "d1" [FastApiPipeline.created_d1] (Page.polling_started "d1")))
  = true.
Proof.
  assert (Hid : "d1" <> "") by discriminate.
  assert (Hseen :
            Forall (fun s =>
                      s ∈ FastApiPipeline.created_d1
                          :: removelast
                               (FastApiPipeline.generate_deck
                                  (list string) (list string) (list string)
                                  FastApiPipeline.outline_ok FastApiPipeline.content_ok
                                  FastApiPipeline.overflow_ok FastApiPipeline.render_ok
                                  "d1" FastApiSpec.sample_request
                                  FastApiPipeline.created_d1))
              [FastApiPipeline.created_d1]).
  { constructor; [|constructor]. constructor. }
  destruct (page_follows_generation (list string) (list string) (list string)
              FastApiPipeline.outline_ok FastApiPipeline.content_ok
              FastApiPipeline.overflow_ok FastApiPipeline.render_ok
              "d1" FastApiSpec.sample_request FastApiSpec.empty_server
              [FastApiPipeline.created_d1] Hid Hseen)
    as (_ & _ & _ & _ & _ & H & _).
  exact H.
Defined.

Lemma generated_statuses_in_components_witness :
  exists status,
    FastApiPipeline.status_in "d1"
      (FastApiPipeline.write "d1" (FastApiPipeline.update_status "outline" 20)
         FastApiPipeline.created_d1) = Some status
    /\ is_Some (DeckList.color (DeckList.render_status status))
    /\ is_Some (DeckList.children (DeckList.render_status status))
    /\ (status ∈ ["outline"; "done"; "error"]
        \/ DeckStatusView.stepItems status = replicate 12 DeckStatusView.step_wait).
Proof.
  apply (generated_statuses_in_components (list string) (list string) (list string)
           FastApiPipeline.outline_ok FastApiPipeline.content_ok
           FastApiPipeline.overflow_ok FastApiPipeline.render_fails
           "d1" FastApiSpec.sample_request FastApiPipeline.created_d1).
  vm_compute. constructor.
Defined.

(** ** Downloading *)

Lemma append_assoc (a b c : string) : (a +:+ b) +:+ c = a +:+ (b +:+ c).
Proof.
  induction a as [|x a IH]; [reflexivity|].
  change (String x ((a +:+ b) +:+ c) = String x (a +:+ (b +:+ c))).
  rewrite IH. reflexivity.
Qed.

Lemma truthy_true (s : string) : s <> "" -> Page.truthy s = true.
Proof.
  intros H. unfold Page.truthy. rewrite bool_decide_eq_false_2 by exact H. reflexivity.
Qed.

Lemma header_value_ok_app (a b : string) :
  DownloadRoute.header_value_ok (a +:+ b)
  = DownloadRoute.header_value_ok a && DownloadRoute.header_value_ok b.
Proof.
  induction a as [|c a IH]; [reflexivity|].
  change (String c a +:+ b) with (String c (a +:+ b)). simpl.
  rewrite IH, andb_assoc. reflexivity.
Qed.

Lemma unreserved_not_forbidden (c : ascii) :
  Http.unreserved c = true -> DownloadRoute.forbidden_in_header c = false.
Proof.
  destruct c as [[] [] [] [] [] [] [] []]; vm_compute; intros H;
    first [reflexivity | discriminate H].
Qed.

Lemma unreserved_only_header_ok (s : string) :
  Http.unreserved_only s = true -> DownloadRoute.header_value_ok s = true.
Proof.
  induction s as [|c s IH]; [reflexivity|]. simpl.
  intros [Hc Hs]%andb_true_iff.
  rewrite (unreserved_not_forbidden c Hc), (IH Hs). reflexivity.
Qed.

Lemma plain_id_header_ok (id : string) :
  Http.plain_id id = true
  -> id <> "" /\ DownloadRoute.header_value_ok (DownloadRoute.content_disposition id) = true.
Proof.
  unfold Http.plain_id.
  intros [[[Hne Hu]%andb_true_iff _]%andb_true_iff _]%andb_true_iff.
  split.
  - apply negb_true_iff, bool_decide_eq_false in Hne. exact Hne.
  - unfold DownloadRoute.content_disposition.
    rewrite !header_value_ok_app, (unreserved_only_header_ok id Hu). reflexivity.
Qed.

(** X15. The Download button of a row of DeckList, over the download
    route. It is there exactly for a row marked done. For a row whose
    id is plain (not empty, of letters, digits, hyphens, full stops,
    underscores and tildes), over the reference server with its
    [FileResponse] taken from [fastapi.responses]: a click saves the
    file the server serves, under the very name the server gives it,
    and ends in the alert whenever the server refuses; the
    Content-Disposition header of the route carries the same file
    name. The route itself, called for an id that holds a NUL, a line
    feed or a carriage return, cannot set that header: it never answers
    200, and when the service behind it has answered with a file it
    answers 500. *)
Theorem row_download_matches_server
    (sv : FastApiSpec.Server) (record : DeckListRow.DeckItem) (st : Page.State) :
  let id := DeckListRow.deckId record in
  let route := DownloadRoute.GET (Http.serve_download sv) in
  let alert := Page.Alerted "Failed to download deck. Please try again." in
  (Http.plain_id id = true ->
   DeckListRow.click_download route record st
   = (if bool_decide (DeckListRow.status record = "done") then
        Some match FastApiSpec.download_deck id sv with
             | FastApiSpec.Ok (path, name) => Page.Saved name (DownloadRoute.Blob path)
             | FastApiSpec.HTTPException _ _ => alert
             end
      else None)
   /\ (forall path name,
         FastApiSpec.download_deck id sv = FastApiSpec.Ok (path, name) ->
         DownloadRoute.headers (route id)
         = [("Content-Type", DownloadRoute.pptx_type);
            ("Content-Disposition",
             "attachment; filename=" +:+ DownloadRoute.double_quote +:+ name
             +:+ DownloadRoute.double_quote)]))
  /\ (forall fetch_download id' c,
        c ∈ String.list_ascii_of_string id' ->
        nat_of_ascii c ∈ [0; 10; 13] ->
        DownloadRoute.http (DownloadRoute.GET fetch_download id') <> 200
        /\ forall code text json,
             fetch_download id' = Http.Responded code text json ->
             Http.ok code = true ->
             DownloadRoute.GET fetch_download id'
             = {| DownloadRoute.http := 500; DownloadRoute.headers := [];
                  DownloadRoute.body :=
                    DownloadRoute.ErrorJson "Internal server error" None |}).
Proof.
  intros id route alert. subst id route alert. split.
  - intros [Hid Hok]%plain_id_header_ok. split.
    + unfold DeckListRow.click_download, DeckListRow.action.
      case_bool_decide as Hdone; [|case_bool_decide; reflexivity].
      unfold Page.handleDownload, Page.targetDeckId. rewrite (truthy_true _ Hid).
      unfold DownloadRoute.GET, Http.serve_download, FastApiSpec.download_deck.
      destruct (FastApiSpec.decks sv !! DeckListRow.deckId record) as [e|];
        [|reflexivity].
      case_bool_decide; [reflexivity|].
      destruct (FastApiSpec.file_path e); [|reflexivity].
      cbn [Http.ok Nat.leb andb]. rewrite Hok. reflexivity.
    + intros path name.
      unfold DownloadRoute.GET, Http.serve_download, FastApiSpec.download_deck.
      destruct (FastApiSpec.decks sv !! DeckListRow.deckId record) as [e|];
        [|discriminate].
      case_bool_decide; [discriminate|].
      destruct (FastApiSpec.file_path e); [|discriminate].
      intros [= _ <-]. cbn [Http.ok Nat.leb andb]. rewrite Hok. simpl.
      unfold DownloadRoute.content_disposition.
      rewrite !append_assoc. reflexivity.
  - intros fetch_download id' c Hc Hbad.
    assert (Hno : DownloadRoute.header_value_ok (DownloadRoute.content_disposition id')
                  = false).
    { unfold DownloadRoute.content_disposition.
      rewrite !header_value_ok_app.
      assert (Hid : DownloadRoute.header_value_ok id' = false).
      { revert Hc. generalize id' as s.
        induction s as [|a s IH]; simpl; intros Hin.
        - apply elem_of_nil in Hin. destruct Hin.
        - apply elem_of_cons in Hin as [<-|Hin].
          + assert (DownloadRoute.forbidden_in_header c = true) as ->; [|reflexivity].
            unfold DownloadRoute.forbidden_in_header.
            apply elem_of_cons in Hbad as [->|Hbad]; [reflexivity|].
            apply elem_of_cons in Hbad as [->|Hbad]; [reflexivity|].
            apply elem_of_cons in Hbad as [->|Hbad]; [reflexivity|].
            apply elem_of_nil in Hbad. destruct Hbad.
          + rewrite (IH Hin), andb_false_r. reflexivity. }
      rewrite Hid, !andb_false_r. reflexivity. }
    split.
    + unfold DownloadRoute.GET.
      destruct (fetch_download id') as [code text json|].
      * destruct (Http.ok code) eqn:Hcode.
        -- rewrite Hno, andb_false_r. simpl. discriminate.
        -- destruct (WebResponse.accepts_body code); simpl; [|discriminate].
           intros ->. discriminate Hcode.
      * simpl. discriminate.
    + intros code text json Hfetch Hcode. unfold DownloadRoute.GET.
      rewrite Hfetch, Hcode, Hno, andb_false_r. reflexivity.
Qed.

Lemma row_download_matches_server_witness :
  DeckListRow.click_download
    (DownloadRoute.GET (Http.serve_download FastApiPipeline.done_d1))
    {| DeckListRow.deckId := "d1"; DeckListRow.status := "done";
       DeckListRow.progress := 100 |}
    Page.initial
  = Some (Page.Saved "presentation-d1.pptx" (DownloadRoute.Blob "output/d1.pptx"))
  /\ DownloadRoute.GET (fun _ => Http.Responded 200 "file" None)
       (String (ascii_of_nat 10) "d1")
     = {| DownloadRoute.http := 500; DownloadRoute.headers := [];
          DownloadRoute.body := DownloadRoute.ErrorJson "Internal server error" None |}.
Proof.
  destruct (row_download_matches_server FastApiPipeline.done_d1
              {| DeckListRow.deckId := "d1"; DeckListRow.status := "done";
                 DeckListRow.progress := 100 |}
              Page.initial) as [H1 H2].
  split.
  - destruct (H1 eq_refl) as [H _]. exact H.
  - destruct (H2 (fun _ => Http.Responded 200 "file" None)
                (String (ascii_of_nat 10) "d1") (ascii_of_nat 10)) as [_ H].
    + apply elem_of_cons. left. reflexivity.
    + apply elem_of_cons. right. apply elem_of_cons. left. reflexivity.
    + apply (H 200 "file" None); reflexivity.
Defined.

(** X16. The Download button of the DeckStatus panel hands the click
    event to [handleDownload], so the id requested is the text of an
    object, whatever deck the page shows: a click does what a call
    with the id "[object Object]" does, and against a server that
    stores no deck under that name it ends in the alert. *)
Theorem panel_download_requests_event_text
    (sv : FastApiSpec.Server) (st : Page.State) :
  FastApiSpec.decks sv !! "[object Object]" = None ->
  (forall route st',
      Page.handleDownload route Page.ClickEvent st
      = Page.handleDownload route (Page.IdArg "[object Object]") st')
  /\ StatusPanel.click_download (DownloadRoute.GET (Http.serve_download sv)) st
     = if StatusPanel.download_button st
       then Some (Page.Alerted "Failed to download deck. Please try again.")
       else None.
Proof.
  intros Hnone. split; [reflexivity|].
  unfold StatusPanel.click_download.
  destruct (StatusPanel.download_button st); [|reflexivity].
  unfold Page.handleDownload, Page.targetDeckId, DownloadRoute.GET,
    Http.serve_download, FastApiSpec.download_deck.
  rewrite Hnone. reflexivity.
Qed.

Lemma panel_download_requests_event_text_witness :
  StatusPanel.download_button Page.d1_done = true
  /\ StatusPanel.click_download
       (DownloadRoute.GET (Http.serve_download FastApiPipeline.done_d1)) Page.d1_done
     = Some (Page.Alerted "Failed to download deck. Please try again.").
Proof.
  split; [vm_compute; reflexivity|].
  destruct (panel_download_requests_event_text FastApiPipeline.done_d1 Page.d1_done)
    as [_ H].
  - vm_compute. reflexivity.
  - exact H.
Defined.
